(** * A shallow embedding of the Webflow bulk editor back end (src/app.py)

    The Python values that the code manipulates are JSON values; Python
    dictionaries are association lists with Python's assignment semantics;
    Python exceptions are an explicit [py] result.  The JSON decoder
    ([json.loads]) and the HTTP transport are library code and are kept
    abstract as Section variables. *)

From Stdlib Require Import String Ascii ZArith List Bool Lia QArith Lqa.
Import ListNotations.
Open Scope string_scope.
Set Warnings "-register-all".

(** ** Values *)

(** A decoded JSON value: [None], booleans, numbers, strings, lists and
    dictionaries. *)
Inductive json : Type :=
| JNull : json
| JBool : bool -> json
| JNum : Z -> json
| JStr : string -> json
| JArr : list json -> json
| JObj : list (string * json) -> json.

(** The Python exceptions that can be raised on the paths we model. *)
Inductive exc : Type :=
| ExcJSONDecode : string -> exc          (* json.JSONDecodeError *)
| ExcRequestsJSONDecode : string -> exc  (* requests.exceptions.JSONDecodeError *)
| ExcTimeout : exc                       (* requests.exceptions.Timeout *)
| ExcConnection : exc                    (* requests.exceptions.ConnectionError *)
| ExcRequest : string -> exc             (* other requests.exceptions.RequestException *)
| ExcValue : string -> exc               (* ValueError *)
| ExcAttribute : string -> exc           (* AttributeError *)
| ExcOther : string -> exc.              (* any other Exception *)

(** [str(e)] *)
Definition exc_str (e : exc) : string :=
  match e with
  | ExcJSONDecode m | ExcRequestsJSONDecode m | ExcRequest m
  | ExcValue m | ExcAttribute m | ExcOther m => m
  | ExcTimeout => "timed out"
  | ExcConnection => "connection refused"
  end.

(** The class hierarchy used by the [except] clauses: since requests 2.27,
    [requests.exceptions.JSONDecodeError] derives from both
    [RequestException] and [json.JSONDecodeError]. *)
Definition is_timeout (e : exc) : bool :=
  match e with ExcTimeout => true | _ => false end.
Definition is_connection_error (e : exc) : bool :=
  match e with ExcConnection => true | _ => false end.
Definition is_request_exception (e : exc) : bool :=
  match e with
  | ExcTimeout | ExcConnection | ExcRequest _ | ExcRequestsJSONDecode _ => true
  | _ => false
  end.
Definition is_json_decode_error (e : exc) : bool :=
  match e with
  | ExcJSONDecode _ | ExcRequestsJSONDecode _ => true
  | _ => false
  end.

(** Python evaluation: a value or a raised exception. *)
Inductive py (A : Type) : Type :=
| Ret : A -> py A
| Raise : exc -> py A.
Arguments Ret {A} _.
Arguments Raise {A} _.

Definition py_bind {A B} (m : py A) (f : A -> py B) : py B :=
  match m with Ret a => f a | Raise e => Raise e end.

Notation "x <- m ;; k" := (py_bind m (fun x => k))
  (at level 61, m at next level, right associativity).

(** ** Dictionaries *)

Definition dict := list (string * json).

(** [d.get(k)] *)
Fixpoint dict_get (d : dict) (k : string) : option json :=
  match d with
  | [] => None
  | (k', v) :: r => if String.eqb k k' then Some v else dict_get r k
  end.

(** [k in d] *)
Definition dict_has (d : dict) (k : string) : bool :=
  match dict_get d k with Some _ => true | None => false end.

(** [d[k] = v]: an existing key keeps its position, a new key goes last. *)
Fixpoint dict_set (d : dict) (k : string) (v : json) : dict :=
  match d with
  | [] => [(k, v)]
  | (k', v') :: r =>
      if String.eqb k k' then (k', v) :: r else (k', v') :: dict_set r k v
  end.

(** ** String helpers *)

(** Characters removed by [str.strip()] among code points 0..255. *)
Definition py_isspace (c : ascii) : bool :=
  let n := nat_of_ascii c in
  (  ((9 <=? n) && (n <=? 13)) || ((28 <=? n) && (n <=? 32))
  || (n =? 133) || (n =? 160))%nat.

Fixpoint lstrip (s : string) : string :=
  match s with
  | EmptyString => EmptyString
  | String c r => if py_isspace c then lstrip r else s
  end.

Definition rstrip (s : string) : string :=
  string_of_list_ascii
    (rev (list_ascii_of_string (lstrip (string_of_list_ascii
       (rev (list_ascii_of_string s)))))).

(** [s.strip()] *)
Definition strip (s : string) : string := rstrip (lstrip s).

(** [s.startswith('{')] and [s.endswith('}')] *)
Definition starts_with_brace (s : string) : bool :=
  match s with String c _ => Ascii.eqb c "{"%char | EmptyString => false end.

Definition ends_with_brace (s : string) : bool :=
  match rev (list_ascii_of_string s) with
  | c :: _ => Ascii.eqb c "}"%char
  | [] => false
  end.

(** The reference fields [['tags', 'gallery', 'categories']]. *)
Definition is_reference_field (k : string) : bool :=
  String.eqb k "tags" || String.eqb k "gallery" || String.eqb k "categories".

(** ** The field normalizer: [WebflowAPI.clean_field_data] *)

Section Normalizer.

(** [json.loads]: a value, [json.JSONDecodeError] for malformed text, or
    another exception (e.g. the [ValueError] of CPython's integer digit
    limit). *)
Variable json_loads : string -> py json.

(** One iteration of the loop body for the pair [(key, value)]:
    [Ret (Some v)] assigns [cleaned_data[key] = v], [Ret None] is a
    [continue] without assignment. *)
Definition clean_field (key : string) (value : json) : py (option json) :=
  match value with
  | JStr s =>
      if String.eqb s "null" || String.eqb s "undefined" then Ret None
      else
        let fall_through :=
          if String.eqb (strip s) "" && is_reference_field key then Ret None
          else Ret (Some value) in
        if starts_with_brace s && ends_with_brace s then
          match json_loads s with
          | Ret parsed => Ret (Some parsed)
          | Raise e => if is_json_decode_error e then fall_through else Raise e
          end
        else fall_through
  | JNull => Ret None
  | JArr [] => if is_reference_field key then Ret None else Ret (Some value)
  | _ => Ret (Some value)
  end.

Fixpoint clean_loop (items : dict) (cleaned_data : dict) : py dict :=
  match items with
  | [] => Ret cleaned_data
  | (key, value) :: rest =>
      o <- clean_field key value ;;
      match o with
      | Some v => clean_loop rest (dict_set cleaned_data key v)
      | None => clean_loop rest cleaned_data
      end
  end.

(** [clean_field_data(field_data)] on a dictionary. *)
Definition clean_field_data (field_data : dict) : py dict :=
  clean_loop field_data [].

(** The same call on an arbitrary value: [field_data.items()] raises
    [AttributeError] unless the value is a dictionary. *)
Definition clean_field_value (field_data : json) : py dict :=
  match field_data with
  | JObj d => clean_field_data d
  | _ => Raise (ExcAttribute "object has no attribute 'items'")
  end.

End Normalizer.

(** ** Formatting *)

Definition digit_char (d : nat) : ascii := ascii_of_nat (48 + d).

Fixpoint nat_digits (fuel n : nat) (acc : string) : string :=
  match fuel with
  | O => acc
  | S f =>
      let acc' := String (digit_char (n mod 10)) acc in
      if (n <? 10)%nat then acc' else nat_digits f (n / 10) acc'
  end.

(** [str(n)] for a natural number. *)
Definition nat_str (n : nat) : string := nat_digits (S n) n "".

(** [str(z)] for an integer. *)
Definition Z_str (z : Z) : string :=
  if (z <? 0)%Z then "-" ++ nat_str (Z.to_nat (- z)) else nat_str (Z.to_nat z).

Fixpoint join (sep : string) (l : list string) : string :=
  match l with
  | [] => ""
  | [x] => x
  | x :: r => x ++ sep ++ join sep r
  end.

Definition hex_digit (d : nat) : ascii :=
  if (d <? 10)%nat then ascii_of_nat (48 + d) else ascii_of_nat (87 + d).

(** Two lowercase hexadecimal digits of a code point below 256. *)
Definition hex2 (n : nat) : string :=
  String (hex_digit (n / 16)) (String (hex_digit (n mod 16)) "").

Definition quote_char : ascii := ascii_of_nat 39.
Definition dquote_char : ascii := ascii_of_nat 34.
Definition backslash_char : ascii := ascii_of_nat 92.

Fixpoint has_char (c : ascii) (s : string) : bool :=
  match s with
  | EmptyString => false
  | String c' r => Ascii.eqb c c' || has_char c r
  end.

(** One character inside [repr(s)] delimited by the quote [q]; code points
    0..255 that are not printable are written [\xNN]. *)
Definition repr_char (q c : ascii) : string :=
  let n := nat_of_ascii c in
  if Ascii.eqb c backslash_char then String backslash_char (String backslash_char "")
  else if Ascii.eqb c q then String backslash_char (String q "")
  else if (n =? 10)%nat then String backslash_char "n"
  else if (n =? 13)%nat then String backslash_char "r"
  else if (n =? 9)%nat then String backslash_char "t"
  else if ((n <? 32) || (n =? 127) || ((128 <=? n) && (n <=? 160)) || (n =? 173))%nat
  then String backslash_char ("x" ++ hex2 n)
  else String c "".

Fixpoint repr_chars (q : ascii) (s : string) : string :=
  match s with
  | EmptyString => ""
  | String c r => repr_char q c ++ repr_chars q r
  end.

(** [repr(s)] of a string: double quotes when [s] contains a single quote
    and no double quote, single quotes otherwise. *)
Definition str_repr (s : string) : string :=
  let q := if has_char quote_char s && negb (has_char dquote_char s)
           then dquote_char else quote_char in
  String q (repr_chars q s ++ String q "").

(** [repr(v)] of a JSON value (used only inside messages). *)
Fixpoint py_repr (v : json) : string :=
  match v with
  | JNull => "None"
  | JBool true => "True"
  | JBool false => "False"
  | JNum z => Z_str z
  | JStr s => str_repr s
  | JArr l => "[" ++ join ", " (map py_repr l) ++ "]"
  | JObj d =>
      "{" ++ join ", " (map (fun kv => str_repr (fst kv) ++ ": " ++ py_repr (snd kv)) d)
      ++ "}"
  end.

(** One character inside a string of [json.dumps] (with [ensure_ascii]):
    only printable ASCII other than the quote and the backslash is written
    as is. *)
Definition json_char (c : ascii) : string :=
  let n := nat_of_ascii c in
  if Ascii.eqb c dquote_char then String backslash_char (String dquote_char "")
  else if Ascii.eqb c backslash_char then String backslash_char (String backslash_char "")
  else if (n =? 10)%nat then String backslash_char "n"
  else if (n =? 13)%nat then String backslash_char "r"
  else if (n =? 9)%nat then String backslash_char "t"
  else if (n =? 8)%nat then String backslash_char "b"
  else if (n =? 12)%nat then String backslash_char "f"
  else if ((n <? 32) || (127 <=? n))%nat then String backslash_char ("u00" ++ hex2 n)
  else String c "".

Fixpoint json_chars (s : string) : string :=
  match s with
  | EmptyString => ""
  | String c r => json_char c ++ json_chars r
  end.

Definition json_str (s : string) : string :=
  String dquote_char (json_chars s ++ String dquote_char "").

(** [json.dumps(v)] with the default separators. *)
Fixpoint json_dumps (v : json) : string :=
  match v with
  | JNull => "null"
  | JBool true => "true"
  | JBool false => "false"
  | JNum z => Z_str z
  | JStr s => json_str s
  | JArr l => "[" ++ join ", " (map json_dumps l) ++ "]"
  | JObj d =>
      "{" ++ join ", " (map (fun kv => json_str (fst kv) ++ ": " ++ json_dumps (snd kv)) d)
      ++ "}"
  end.

(** [str(v)] *)
Definition py_str (v : json) : string :=
  match v with JStr s => s | _ => py_repr v end.

(** ** Results *)

(** The dictionaries returned by [_make_request] and by the chunk loops:
    [{'success': True, 'data': d}], [{'success': True, 'message': m}] and
    [{'success': False, 'error': e, ['details': d], ['status_code': c]}]. *)
Inductive result : Type :=
| RSuccess : json -> result
| RSuccessMsg : string -> result
| RFailure : json -> option json -> option Z -> result.

(** [r['success']] *)
Definition success (r : result) : bool :=
  match r with RSuccess _ | RSuccessMsg _ => true | RFailure _ _ _ => false end.

Definition result_json (r : result) : json :=
  match r with
  | RSuccess d => JObj [("success", JBool true); ("data", d)]
  | RSuccessMsg m => JObj [("success", JBool true); ("message", JStr m)]
  | RFailure e d c =>
      JObj ([("success", JBool false); ("error", e)]
            ++ match d with Some d => [("details", d)] | None => [] end
            ++ match c with Some c => [("status_code", JNum c)] | None => [] end)
  end.

(** ** Chunking *)

Definition chunk_size : nat := 100.

(** [range(start, stop, step)], with enough fuel for [step >= 1]. *)
Fixpoint py_range (fuel start stop step : nat) : list nat :=
  match fuel with
  | O => []
  | S f => if (start <? stop)%nat then start :: py_range f (start + step) stop step
           else []
  end.

(** [[items[i:i + chunk_size] for i in range(0, len(items), chunk_size)]] *)
Definition chunks_of {A} (items : list A) : list (list A) :=
  map (fun i => firstn chunk_size (skipn i items))
      (py_range (length items) 0 (length items) chunk_size).

(** An outbound call recorded by the synchronizer: HTTP method and body. *)
Definition call := (string * json)%type.

Definition items_body (chunk : list json) : json := JObj [("items", JArr chunk)].

(** ** The batch synchronizer: [update_collection_items] and
    [create_collection_items] *)

Section Synchronizer.

Variable json_loads : string -> py json.

(** [self._make_request(method, f'/collections/{collection_id}/items', data)]
    for the fixed collection; it returns a result dictionary and never
    raises (see [make_request] below). *)
Variable request : string -> json -> result.

Definition item := dict.

(** [item['fieldData']] *)
Definition field_data_of (it : item) : py json :=
  match dict_get it "fieldData" with
  | Some v => Ret v
  | None => Raise (ExcOther "KeyError: 'fieldData'")
  end.

Definition id_of (it : item) : json :=
  match dict_get it "id" with Some v => v | None => JNull end.

(** The validation loop of [update_collection_items]. *)
Fixpoint validate_update (i : nat) (items : list item) : option result :=
  match items with
  | [] => None
  | it :: rest =>
      if negb (dict_has it "id") then
        Some (RFailure (JStr ("Item " ++ nat_str i ++ " missing required id field"))
                None None)
      else if negb (dict_has it "fieldData") then
        Some (RFailure (JStr ("Item " ++ py_str (id_of it)
                              ++ " missing required fieldData field")) None None)
      else validate_update (S i) rest
  end.

(** The cleaning loop over one chunk of [update_collection_items]: each
    item with non-empty cleaned field data becomes
    [{'id': item['id'], 'fieldData': cleaned}]. *)
Fixpoint clean_chunk_update (chunk : list item) : py (list json) :=
  match chunk with
  | [] => Ret []
  | it :: rest =>
      fd <- field_data_of it ;;
      cfd <- clean_field_value json_loads fd ;;
      crest <- clean_chunk_update rest ;;
      match cfd with
      | [] => Ret crest
      | _ => Ret (JObj [("id", id_of it); ("fieldData", JObj cfd)] :: crest)
      end
  end.

(** The chunk loop of [update_collection_items]: the results so far and the
    outbound calls made so far are threaded through. *)
Fixpoint update_loop (chunks : list (list item)) (results : list result)
    (calls : list call) : py (list result) * list call :=
  match chunks with
  | [] => (Ret results, calls)
  | chunk :: rest =>
      match clean_chunk_update chunk with
      | Raise e => (Raise e, calls)
      | Ret [] =>
          update_loop rest
            (results ++ [RSuccessMsg "No valid items to update in chunk"]) calls
      | Ret cleaned =>
          let data := items_body cleaned in
          update_loop rest (results ++ [request "PATCH" data])
            (calls ++ [("PATCH", data)])
      end
  end.

Definition update_collection_items (items : list item)
    : py (list result) * list call :=
  match validate_update 0 items with
  | Some r => (Ret [r], [])
  | None => update_loop (chunks_of items) [] []
  end.

(** The validation loop of [create_collection_items]. *)
Fixpoint validate_create (i : nat) (items : list item) : option result :=
  match items with
  | [] => None
  | it :: rest =>
      if negb (dict_has it "fieldData") then
        Some (RFailure (JStr ("New item " ++ nat_str i
                              ++ " missing required fieldData field")) None None)
      else validate_create (S i) rest
  end.

(** The cleaning loop of [create_collection_items]: [clean_items]. *)
Fixpoint clean_items_create (items : list item) : py (list json) :=
  match items with
  | [] => Ret []
  | it :: rest =>
      fd <- field_data_of it ;;
      cfd <- clean_field_value json_loads fd ;;
      crest <- clean_items_create rest ;;
      match cfd with
      | [] => Ret crest
      | _ => Ret (JObj [("fieldData", JObj cfd)] :: crest)
      end
  end.

Fixpoint create_loop (chunks : list (list json)) (results : list result)
    (calls : list call) : py (list result) * list call :=
  match chunks with
  | [] => (Ret results, calls)
  | chunk :: rest =>
      let data := items_body chunk in
      create_loop rest (results ++ [request "POST" data])
        (calls ++ [("POST", data)])
  end.

Definition create_collection_items (items : list item)
    : py (list result) * list call :=
  match validate_create 0 items with
  | Some r => (Ret [r], [])
  | None =>
      match clean_items_create items with
      | Raise e => (Raise e, [])
      | Ret clean_items => create_loop (chunks_of clean_items) [] []
      end
  end.

(** The [error_details] lines of a route handler: one per failed batch. *)
Fixpoint error_details (i : nat) (failed : list result) : list json :=
  match failed with
  | [] => []
  | r :: rest =>
      let line :=
        match r with
        | RFailure e (Some d) _ =>
            "Batch " ++ nat_str i ++ ": " ++ py_str e ++ " | Details: " ++ json_dumps d
        | RFailure e None _ => "Batch " ++ nat_str i ++ ": " ++ py_str e
        | _ => "Batch " ++ nat_str i ++ ": "
        end in
      JStr line :: error_details (S i) rest
  end.

(** The route handler [create_collection_items] (POST
    /api/collections/<id>/items) from [items_data] on: the JSON body and
    the HTTP status of the response; an exception becomes a 500. *)
Definition create_handler (items_data : list item) : py (json * Z) :=
  match items_data with
  | [] => Ret (JObj [("success", JBool false);
                     ("error", JStr "No items provided for creation")], 400%Z)
  | sample_item :: _ =>
      match dict_get sample_item "fieldData" with
      | Some (JObj _) | None =>
          match fst (create_collection_items items_data) with
          | Raise e => Raise e
          | Ret results =>
              let successful_batches := filter success results in
              let failed_batches := filter (fun r => negb (success r)) results in
              match failed_batches with
              | [] =>
                  Ret (JObj [("success", JBool true);
                             ("message", JStr ("Successfully created "
                                ++ nat_str (length items_data) ++ " new items in "
                                ++ nat_str (length results) ++ " batches"));
                             ("results", JArr (map result_json results))], 200%Z)
              | _ =>
                  Ret (JObj [("success", JBool false);
                             ("error", JStr (nat_str (length failed_batches)
                                ++ " out of " ++ nat_str (length results)
                                ++ " batches failed during creation"));
                             ("successful_batches",
                              JNum (Z.of_nat (length successful_batches)));
                             ("failed_batches", JNum (Z.of_nat (length failed_batches)));
                             ("error_details", JArr (error_details 1 failed_batches));
                             ("results", JArr (map result_json results))], 400%Z)
              end
          end
      | Some _ => Raise (ExcAttribute "object has no attribute 'keys'")
      end
  end.

End Synchronizer.

(** ** The upstream client: [WebflowAPI._make_request] *)

(** A response of the [requests] library: status, headers and body text. *)
Record response : Type := mkResponse {
  status_code : Z;
  headers : list (string * string);
  text : string
}.

Definition ascii_lower (c : ascii) : ascii :=
  let n := nat_of_ascii c in
  if ((65 <=? n) && (n <=? 90))%nat then ascii_of_nat (n + 32) else c.

Fixpoint string_lower (s : string) : string :=
  match s with
  | EmptyString => EmptyString
  | String c r => String (ascii_lower c) (string_lower r)
  end.

(** [response.headers.get(name)]: header names are case-insensitive. *)
Fixpoint header_get (hs : list (string * string)) (name : string) : option string :=
  match hs with
  | [] => None
  | (k, v) :: r =>
      if String.eqb (string_lower k) (string_lower name) then Some v
      else header_get r name
  end.

Definition is_digit (c : ascii) : bool :=
  let n := nat_of_ascii c in ((48 <=? n) && (n <=? 57))%nat.

(** Digits with single underscores between them, as [int()] accepts. *)
Fixpoint valid_int_body (need_digit : bool) (l : list ascii) : bool :=
  match l with
  | [] => negb need_digit
  | c :: r =>
      if is_digit c then valid_int_body false r
      else if Ascii.eqb c "_"%char && negb need_digit then valid_int_body true r
      else false
  end.

Definition digits_value (l : list ascii) : Z :=
  fold_left (fun acc c => (10 * acc + Z.of_nat (nat_of_ascii c - 48))%Z)
    (filter is_digit l) 0%Z.

(** [int(s)] in base 10 (CPython 3.11+, with its 4300-digit limit). *)
Definition py_int (s : string) : py Z :=
  let t := list_ascii_of_string (strip s) in
  let '(neg, body) :=
    match t with
    | c :: r => if Ascii.eqb c "-"%char then (true, r)
                else if Ascii.eqb c "+"%char then (false, r) else (false, t)
    | [] => (false, t)
    end in
  if valid_int_body true body then
    if (4300 <? length (filter is_digit body))%nat then
      Raise (ExcValue "Exceeds the limit (4300 digits) for integer string conversion")
    else Ret (if neg then Z.opp (digits_value body) else digits_value body)
  else Raise (ExcValue ("invalid literal for int() with base 10: " ++ py_repr (JStr s))).

Section Client.

Variable json_loads : string -> py json.

(** [self.api_token]: the empty string stands for an unset token. *)
Variable api_token : string.

(** [requests.get/post/patch(url, ...)] for the method and body: a response
    or a raised [requests] exception. *)
Variable transport : string -> json -> py response.

(** [response.json()] (requests >= 2.27): a decode error is re-raised as
    [requests.exceptions.JSONDecodeError]. *)
Definition response_json (r : response) : py json :=
  match json_loads (text r) with
  | Ret v => Ret v
  | Raise (ExcJSONDecode m) => Raise (ExcRequestsJSONDecode m)
  | Raise e => Raise e
  end.

(** The rate-limit header check: [int(remaining)] for a non-empty value
    (the extra [time.sleep(2)] does not change the result). *)
Definition check_remaining (r : response) : py unit :=
  match header_get (headers r) "X-RateLimit-Remaining" with
  | Some remaining =>
      if String.eqb remaining "" then Ret tt
      else (n <- py_int remaining ;; Ret tt)
  | None => Ret tt
  end.

Definition failure (msg : string) : result := RFailure (JStr msg) None None.

(** The [status_code >= 400] branch with its bare [except:]. *)
Definition error_response (r : response) : result :=
  let code := status_code r in
  let parsed :=
    response_data <- response_json r ;;
    match response_data with
    | JObj d =>
        let error_msg :=
          match dict_get d "message" with
          | Some m => m
          | None => JStr ("HTTP " ++ Z_str code ++ " error")
          end in
        if dict_has d "details" || dict_has d "errors" then
          let details :=
            match dict_get d "details" with
            | Some x => x
            | None => match dict_get d "errors" with Some x => x | None => JArr [] end
            end in
          Ret (RFailure error_msg (Some details) (Some code))
        else Ret (RFailure error_msg None (Some code))
    | _ => Raise (ExcAttribute "object has no attribute 'get'")
    end in
  match parsed with
  | Ret res => res
  | Raise _ => failure ("HTTP " ++ Z_str code ++ " error - could not parse response")
  end.

(** The body of the [try] block once the method is supported. *)
Definition request_body (meth : string) (data : json) : py result :=
  resp <- transport meth data ;;
  _ <- check_remaining resp ;;
  let code := status_code resp in
  if (code =? 401)%Z then
    Ret (failure "Invalid API token. Please check your Webflow API token.")
  else if (code =? 404)%Z then
    Ret (failure "Resource not found. Please verify site/collection IDs.")
  else if (code =? 429)%Z then
    let retry_after :=
      match header_get (headers resp) "Retry-After" with Some v => v | None => "60" end in
    Ret (failure ("Rate limit exceeded. Please wait " ++ retry_after ++ " seconds."))
  else if (400 <=? code)%Z then Ret (error_response resp)
  else
    response_data <- response_json resp ;;
    Ret (RSuccess response_data).

(** The [except] clauses, tried in order. *)
Definition handle_exception (e : exc) : result :=
  if is_timeout e then
    failure "Request timeout - Webflow API took too long to respond"
  else if is_connection_error e then
    failure "Connection error - Unable to reach Webflow API"
  else if is_request_exception e then failure ("Network error: " ++ exc_str e)
  else if is_json_decode_error e then failure "Invalid JSON response from Webflow API"
  else failure ("Unexpected error: " ++ exc_str e).

Definition make_request (meth : string) (data : json) : result :=
  if String.eqb api_token "" then failure "API token not configured"
  else if negb (String.eqb meth "GET" || String.eqb meth "POST"
                || String.eqb meth "PATCH") then
    failure ("Unsupported method: " ++ meth)
  else
    match request_body meth data with
    | Ret res => res
    | Raise e => handle_exception e
    end.

End Client.

(** ** The remaining route handlers and API methods *)

Section Routes.

Variable json_loads : string -> py json.
Variable request : string -> json -> result.

(** The route handler [update_collection_items] (PATCH
    /api/collections/<id>/items) from [items_data] on. *)
Definition update_handler (items_data : list item) : py (json * Z) :=
  match items_data with
  | [] => Ret (JObj [("success", JBool false);
                     ("error", JStr "No items provided for update")], 400%Z)
  | sample_item :: _ =>
      match dict_get sample_item "fieldData" with
      | Some (JObj _) | None =>
          match fst (update_collection_items json_loads request items_data) with
          | Raise e => Raise e
          | Ret results =>
              let successful_batches := filter success results in
              let failed_batches := filter (fun r => negb (success r)) results in
              match failed_batches with
              | [] =>
                  Ret (JObj [("success", JBool true);
                             ("message", JStr ("Successfully updated "
                                ++ nat_str (length items_data) ++ " items in "
                                ++ nat_str (length results) ++ " batches"));
                             ("results", JArr (map result_json results))], 200%Z)
              | _ =>
                  Ret (JObj [("success", JBool false);
                             ("error", JStr (nat_str (length failed_batches)
                                ++ " out of " ++ nat_str (length results)
                                ++ " batches failed"));
                             ("successful_batches",
                              JNum (Z.of_nat (length successful_batches)));
                             ("failed_batches", JNum (Z.of_nat (length failed_batches)));
                             ("error_details", JArr (error_details 1 failed_batches));
                             ("results", JArr (map result_json results))], 400%Z)
              end
          end
      | Some _ => Raise (ExcAttribute "object has no attribute 'keys'")
      end
  end.

End Routes.

(** Python truthiness of a JSON value. *)
Definition py_truthy (v : json) : bool :=
  match v with
  | JNull => false
  | JBool b => b
  | JNum z => negb (Z.eqb z 0)
  | JStr s => negb (String.eqb s "")
  | JArr l => match l with [] => false | _ => true end
  | JObj d => match d with [] => false | _ => true end
  end.

(** The body sent by [WebflowAPI.publish_site]. *)
Definition publish_data (custom_domains : json) : json :=
  JObj ([("publishToWebflowSubdomain", JBool true)]
        ++ if py_truthy custom_domains then [("customDomains", custom_domains)] else [])%list.

(** [WebflowAPI.publish_site(site_id, custom_domains)] for a fixed site. *)
Definition publish_site (request : string -> json -> result) (custom_domains : json)
    : result :=
  request "POST" (publish_data custom_domains).

(** The type name used by Python in an [AttributeError] message. *)
Definition py_type_name (v : json) : string :=
  match v with
  | JNull => "NoneType" | JBool _ => "bool" | JNum _ => "int" | JStr _ => "str"
  | JArr _ => "list" | JObj _ => "dict"
  end.

(** [result['error']] of a failure. *)
Definition result_error (r : result) : json :=
  match r with RFailure e _ _ => e | _ => JNull end.

(** The reply of the route handler [publish_site] to the upstream result. *)
Definition publish_reply (result : result) : json * Z :=
  if success result then
    (JObj [("success", JBool true); ("message", JStr "Site published successfully")],
     200%Z)
  else (JObj [("success", JBool false); ("error", result_error result)], 400%Z).

(** The route handler [publish_site] (POST /api/sites/<id>/publish): [body]
    is [request.get_json()] ([None] when it returns None, as for a JSON
    body [null]); everything runs in a
    [try] whose [except Exception] answers 500. *)
Definition publish_handler (publish : json -> result) (body : option json) : json * Z :=
  let data := match body with
              | Some v => if py_truthy v then v else JObj []
              | None => JObj []
              end in
  let attempt : py (json * Z) :=
    match data with
    | JObj d =>
        let custom_domains := match dict_get d "customDomains" with
                              | Some v => v | None => JNull end in
        Ret (publish_reply (publish custom_domains))
    | v => Raise (ExcAttribute ("'" ++ py_type_name v ++ "' object has no attribute 'get'"))
    end in
  match attempt with
  | Ret r => r
  | Raise e => (JObj [("success", JBool false);
                      ("error", JStr ("Server error during publish: " ++ exc_str e))], 500%Z)
  end.

(** The route handler [health_check] (GET /api/health): [sites] is the
    result of [webflow_api.get_sites()], made only when a token is set. *)
Definition health_check (api_token : string) (sites : unit -> result) : json * Z :=
  if String.eqb api_token "" then
    (JObj [("success", JBool false);
           ("error", JStr ("API token not configured. Please add WEBFLOW_API_TOKEN "
                           ++ "to your .env file."))], 400%Z)
  else
    let result := sites tt in
    (JObj [("success", JBool (success result));
           ("error", if negb (success result) then result_error result else JNull)],
     200%Z).

(** The listing routes [get_sites] and [get_collections]:
    [result['data'].get(key, [])] on success. *)
Definition listing_response (key : string) (r : result) : py (json * Z) :=
  match r with
  | RSuccess (JObj d) =>
      Ret (JObj [("success", JBool true);
                 (key, match dict_get d key with Some v => v | None => JArr [] end)],
           200%Z)
  | RSuccess v =>
      Raise (ExcAttribute ("'" ++ py_type_name v ++ "' object has no attribute 'get'"))
  | RSuccessMsg _ => Raise (ExcOther "KeyError: 'data'")
  | RFailure e _ _ => Ret (JObj [("success", JBool false); ("error", e)], 400%Z)
  end.

(** [request.args.get(name)]: the first value given for the name. *)
Fixpoint arg_get (args : list (string * string)) (name : string) : option string :=
  match args with
  | [] => None
  | (k, v) :: r => if String.eqb k name then Some v else arg_get r name
  end.

(** The reply of the route handler [get_collection_items] to the upstream
    result. *)
Definition items_response (r : result) : py (json * Z) :=
  match r with
  | RSuccess (JObj d) =>
      Ret (JObj [("success", JBool true);
                 ("items", match dict_get d "items" with Some v => v | None => JArr [] end);
                 ("pagination",
                  match dict_get d "pagination" with Some v => v | None => JObj [] end)],
           200%Z)
  | RSuccess v =>
      Raise (ExcAttribute ("'" ++ py_type_name v ++ "' object has no attribute 'get'"))
  | RSuccessMsg _ => Raise (ExcOther "KeyError: 'data'")
  | RFailure e _ _ => Ret (JObj [("success", JBool false); ("error", e)], 400%Z)
  end.

(** The route handler [get_collection_items] (GET
    /api/collections/<id>/items): [get_items] is
    [webflow_api.get_collection_items] for the collection. *)
Definition get_items_handler (get_items : Z -> Z -> result)
    (args : list (string * string)) : py (json * Z) :=
  limit <- match arg_get args "limit" with Some s => py_int s | None => Ret 100%Z end ;;
  offset <- match arg_get args "offset" with Some s => py_int s | None => Ret 0%Z end ;;
  items_response (get_items limit offset).

(** ** Descriptions used in the statements below *)

(** [chunks] is a stable, non-overlapping split of [l] into pieces of at most
    100: their concatenation is [l], there are ceil(|l|/100) of them and
    piece [k] is [l[100k:100k+100]]. *)
Definition chunk_partition {A} (l : list A) (chunks : list (list A)) : Prop :=
  concat chunks = l /\
  length chunks = ((length l + chunk_size - 1) / chunk_size)%nat /\
  Forall (fun c => (length c <= chunk_size)%nat) chunks /\
  (forall k c, nth_error chunks k = Some c ->
     c = firstn chunk_size (skipn (chunk_size * k) l)).

Definition nonempty {A} (l : list A) : bool :=
  match l with [] => false | _ => true end.

(** The result the update loop records for a chunk with cleaned items
    [cleaned]. *)
Definition update_chunk_result (request : string -> json -> result)
    (cleaned : list json) : result :=
  match cleaned with
  | [] => RSuccessMsg "No valid items to update in chunk"
  | _ => request "PATCH" (items_body cleaned)
  end.

(** The derived counts of a route handler: successful and failed batches. *)
Definition successful_batches (results : list result) : nat :=
  length (filter success results).
Definition failed_batches (results : list result) : nat :=
  length (filter (fun r => negb (success r)) results).

(** The X-RateLimit-Remaining header of a response is absent, empty or an
    integer, so that [int(remaining)] does not raise. *)
Definition remaining_header_ok (r : response) : Prop :=
  match header_get (headers r) "X-RateLimit-Remaining" with
  | None => True
  | Some s => s = "" \/ exists n, py_int s = Ret n
  end.

(** The pairs of [fd] that survive their own loop iteration, in input
    order, each with the value that iteration assigns. *)
Fixpoint surviving (json_loads : string -> py json) (fd : dict) : dict :=
  match fd with
  | [] => []
  | (k, v) :: rest =>
      match clean_field json_loads k v with
      | Ret (Some v') => (k, v') :: surviving json_loads rest
      | _ => surviving json_loads rest
      end
  end.

(** A cleaned Create item built from one of the items [all]. *)
Definition created_from (json_loads : string -> py json) (all : list item) (x : json)
    : Prop :=
  exists it d fd, In it all /\ dict_get it "fieldData" = Some (JObj d) /\
    clean_field_data json_loads d = Ret fd /\ fd <> [] /\
    x = JObj [("fieldData", JObj fd)].

(** A cleaned Update item built from one of the items [all]. *)
Definition updated_from (json_loads : string -> py json) (all : list item) (x : json)
    : Prop :=
  exists it d fd, In it all /\ dict_get it "fieldData" = Some (JObj d) /\
    clean_field_data json_loads d = Ret fd /\ fd <> [] /\
    x = JObj [("id", id_of it); ("fieldData", JObj fd)].

(** ** The rate limiter: [WebflowAPI._rate_limit_delay] *)

Open Scope Q_scope.

(** [min_delay = 1] *)
Definition min_delay : Q := 1.

(** The sleep requested at clock [now] when the stored
    [last_request_time] is [last]. *)
Definition rate_limit_sleep (last now : Q) : Q :=
  let time_since_last_request := now - last in
  if Qlt_le_dec time_since_last_request min_delay
  then min_delay - time_since_last_request else 0.

(** One call: the sleep and the new [last_request_time], read by
    [time.time()] after the sleep; [overshoot >= 0] is the time by which
    [time.sleep] and the scheduler exceed the requested delay. *)
Definition rate_limit_delay (last now overshoot : Q) : Q * Q :=
  let d := rate_limit_sleep last now in (d, now + d + overshoot).

(** A single flow making its calls one after the other: each call arrives
    at a clock value with an overshoot; the stored timestamps in order. *)
Fixpoint throttle_run (last : Q) (calls : list (Q * Q)) : list Q :=
  match calls with
  | [] => []
  | (now, overshoot) :: rest =>
      let t := snd (rate_limit_delay last now overshoot) in
      t :: throttle_run t rest
  end.

(** Consecutive outbound call times are at least [min_delay] apart. *)
Fixpoint well_spaced (ts : list Q) : Prop :=
  match ts with
  | t1 :: ((t2 :: _) as rest) => t1 + min_delay <= t2 /\ well_spaced rest
  | _ => True
  end.

(** Request flows sharing the global [webflow_api] object, interleaved by a
    threaded server: a thread reads the clock and [last_request_time] and
    goes to sleep; when it wakes it stores [time.time()] and issues its
    call.  Nothing serializes the two steps. *)
Inductive thread_phase : Type :=
| TReady : thread_phase
| TSleeping : Q -> thread_phase
| TDone : thread_phase.

Record limiter_state : Type := mkLimiter {
  last_request_time : Q;
  clock : Q;
  threads : list thread_phase;
  outbound : list Q
}.

Inductive limiter_step : Type :=
| Tick : Q -> limiter_step
| Enter : nat -> limiter_step
| Wake : nat -> limiter_step.

Fixpoint set_nth {A} (l : list A) (n : nat) (x : A) : list A :=
  match l, n with
  | [], _ => []
  | _ :: r, O => x :: r
  | y :: r, S n => y :: set_nth r n x
  end.

Definition step (s : limiter_state) (l : limiter_step) : option limiter_state :=
  match l with
  | Tick d =>
      if Qlt_le_dec d 0 then None
      else Some (mkLimiter (last_request_time s) (clock s + d) (threads s) (outbound s))
  | Enter i =>
      match nth_error (threads s) i with
      | Some TReady =>
          let wake := clock s + rate_limit_sleep (last_request_time s) (clock s) in
          Some (mkLimiter (last_request_time s) (clock s)
                  (set_nth (threads s) i (TSleeping wake)) (outbound s))
      | _ => None
      end
  | Wake i =>
      match nth_error (threads s) i with
      | Some (TSleeping w) =>
          if Qlt_le_dec (clock s) w then None
          else Some (mkLimiter (clock s) (clock s) (set_nth (threads s) i TDone)
                       (outbound s ++ [clock s])%list)
      | _ => None
      end
  end.

Fixpoint run (s : limiter_state) (ls : list limiter_step) : option limiter_state :=
  match ls with
  | [] => Some s
  | l :: rest => match step s l with Some s' => run s' rest | None => None end
  end.

Close Scope Q_scope.

(** ** Sample inputs *)

Definition dq : string := String (ascii_of_nat 34) "".

Fixpoint zeros (n : nat) : string :=
  match n with O => "" | S n => String "0"%char (zeros n) end.

(** A field value ['{"n": 1000...0}'] whose integer has 4301 digits. *)
Definition big_int_document : string :=
  "{" ++ dq ++ "n" ++ dq ++ ": 1" ++ zeros 4300 ++ "}".

(** A decoder agreeing with CPython's [json.loads] on the sample texts
    used below. *)
Definition sample_json_loads (s : string) : py json :=
  if String.eqb s "{}" then Ret (JObj [])
  else if String.eqb s big_int_document then
    Raise (ExcValue ("Exceeds the limit (4300 digits) for integer string "
                     ++ "conversion: value has 4301 digits"))
  else Raise (ExcJSONDecode "Expecting value: line 1 column 1 (char 0)").

(** An upstream error body
    ['{"message": "Validation Error", "details": ["slug taken"]}']. *)
Definition validation_error_text : string :=
  "{" ++ dq ++ "message" ++ dq ++ ": " ++ dq ++ "Validation Error" ++ dq ++ ", "
  ++ dq ++ "details" ++ dq ++ ": [" ++ dq ++ "slug taken" ++ dq ++ "]}".

(** [sample_json_loads], extended with the error body above. *)
Definition error_json_loads (s : string) : py json :=
  if String.eqb s validation_error_text then
    Ret (JObj [("message", JStr "Validation Error");
               ("details", JArr [JStr "slug taken"])])
  else sample_json_loads s.

Definition sample_transport (code : Z) (hs : list (string * string)) (body : string)
    : string -> json -> py response :=
  fun _ _ => Ret (mkResponse code hs body).

Definition sample_item (name : json) : item :=
  [("id", JStr "item"); ("fieldData", JObj [("name", name)])].

Definition sample_request : string -> json -> result :=
  fun _ _ => RSuccess (JObj []).

(** An upstream that rejects the chunk starting with item [n = 100]. *)
Definition second_chunk_fails (meth : string) (body : json) : result :=
  match body with
  | JObj [(_, JArr (JObj [(_, JObj [(_, JNum n)])] :: _))] =>
      if (n =? 100)%Z then RFailure (JStr "HTTP 400 error") None (Some 400%Z)
      else RSuccess (JObj [])
  | _ => RSuccess (JObj [])
  end.

(** 250 new items [{'fieldData': {'n': i}}]. *)
Definition numbered_items : list item :=
  map (fun n => [("fieldData", JObj [("n", JNum (Z.of_nat n))])]) (seq 0 250).

Definition numbered_cleaned : list json :=
  map (fun n => JObj [("fieldData", JObj [("n", JNum (Z.of_nat n))])]) (seq 0 250).

(** 101 update items whose first one cleans to nothing. *)
Definition first_item_dropped : list item :=
  sample_item (JStr "null") :: repeat (sample_item (JStr "x")) 100.

(** ** Properties of the field normalizer *)

Lemma dict_get_set (d : dict) (k k' : string) (v : json) :
  dict_get (dict_set d k v) k' = if String.eqb k' k then Some v else dict_get d k'.
Proof.
  induction d as [|[k1 v1] r IH]; simpl.
  - reflexivity.
  - destruct (String.eqb k k1) eqn:E1; simpl.
    + apply String.eqb_eq in E1; subst k1.
      destruct (String.eqb k' k); reflexivity.
    + rewrite IH. destruct (String.eqb k' k1) eqn:E2; [|reflexivity].
      apply String.eqb_eq in E2; subst k1.
      destruct (String.eqb k' k) eqn:E3; [|reflexivity].
      apply String.eqb_eq in E3; subst k'.
      rewrite String.eqb_refl in E1; discriminate.
Qed.

Lemma dict_get_In (d : dict) (k : string) (v : json) :
  NoDup (map fst d) -> In (k, v) d -> dict_get d k = Some v.
Proof.
  induction d as [|[k1 v1] r IH]; simpl; intros Hnd Hin; [contradiction|].
  inversion Hnd as [|? ? Hnotin Hnd']; subst.
  destruct Hin as [Heq | Hin].
  - inversion Heq; subst. rewrite String.eqb_refl. reflexivity.
  - destruct (String.eqb k k1) eqn:E.
    + apply String.eqb_eq in E; subst k1.
      exfalso; apply Hnotin. apply (in_map fst) in Hin. exact Hin.
    + apply IH; assumption.
Qed.

Section NormalizerProofs.

Variable json_loads : string -> py json.

Lemma clean_loop_other (fd acc out : dict) (k : string) :
  ~ In k (map fst fd) -> clean_loop json_loads fd acc = Ret out ->
  dict_get out k = dict_get acc k.
Proof.
  revert acc. induction fd as [|[k1 v1] r IH]; simpl; intros acc Hk Hrun.
  - inversion Hrun; reflexivity.
  - destruct (clean_field json_loads k1 v1) as [[v'|]|e]; simpl in Hrun;
      try discriminate.
    + rewrite (IH _ (fun H => Hk (or_intror H)) Hrun), dict_get_set.
      destruct (String.eqb k k1) eqn:E; [|reflexivity].
      apply String.eqb_eq in E; subst. exfalso; apply Hk; left; reflexivity.
    + exact (IH _ (fun H => Hk (or_intror H)) Hrun).
Qed.

(** A key of the input dictionary is looked up in the output exactly as
    its own loop iteration decides. *)
Lemma clean_loop_lookup (fd acc out : dict) (k : string) (v : json) :
  NoDup (map fst fd) -> In (k, v) fd -> clean_loop json_loads fd acc = Ret out ->
  exists o, clean_field json_loads k v = Ret o /\
    dict_get out k = match o with Some v' => Some v' | None => dict_get acc k end.
Proof.
  revert acc. induction fd as [|[k1 v1] r IH]; simpl; intros acc Hnd Hin Hrun;
    [contradiction|].
  inversion Hnd as [|? ? Hnotin Hnd']; subst.
  destruct Hin as [Heq | Hin].
  - inversion Heq; subst k1 v1.
    destruct (clean_field json_loads k v) as [o|e] eqn:Ec; simpl in Hrun;
      [|discriminate].
    exists o. split; [reflexivity|].
    destruct o as [v'|].
    + rewrite (clean_loop_other _ _ _ _ Hnotin Hrun), dict_get_set,
        String.eqb_refl. reflexivity.
    + exact (clean_loop_other _ _ _ _ Hnotin Hrun).
  - assert (Hne : String.eqb k k1 = false).
    { apply String.eqb_neq. intros ->. apply Hnotin.
      apply (in_map fst) in Hin; exact Hin. }
    destruct (clean_field json_loads k1 v1) as [[v'|]|e]; simpl in Hrun;
      try discriminate.
    + destruct (IH _ Hnd' Hin Hrun) as [o [Ho Hget]].
      exists o. split; [exact Ho|]. rewrite Hget, dict_get_set, Hne.
      reflexivity.
    + exact (IH _ Hnd' Hin Hrun).
Qed.

Lemma clean_field_data_lookup (fd out : dict) (k : string) (v : json) :
  NoDup (map fst fd) -> In (k, v) fd -> clean_field_data json_loads fd = Ret out ->
  exists o, clean_field json_loads k v = Ret o /\ dict_get out k = o.
Proof.
  intros Hnd Hin Hrun.
  destruct (clean_loop_lookup _ _ _ _ _ Hnd Hin Hrun) as [o [Ho Hget]].
  exists o. split; [exact Ho|]. rewrite Hget. destruct o; reflexivity.
Qed.

End NormalizerProofs.

Lemma lstrip_last_nonspace (l : list ascii) (c : ascii) :
  py_isspace c = false -> lstrip (string_of_list_ascii (l ++ [c])) <> EmptyString.
Proof.
  intros Hc. induction l as [|a l IH]; simpl.
  - rewrite Hc. discriminate.
  - destruct (py_isspace a); [exact IH | discriminate].
Qed.

Lemma strip_brace_nonempty (s : string) :
  starts_with_brace s = true -> strip s <> EmptyString.
Proof.
  destruct s as [|c r]; simpl; [discriminate|].
  intros Hc. apply Ascii.eqb_eq in Hc; subst c.
  unfold strip, rstrip; simpl.
  assert (Hx := lstrip_last_nonspace (rev (list_ascii_of_string r)) "{"%char
                  eq_refl).
  destruct (lstrip (string_of_list_ascii (rev (list_ascii_of_string r) ++ ["{"%char])))
    as [|a t]; [contradiction|].
  simpl. destruct (rev (list_ascii_of_string t)); simpl; discriminate.
Qed.

(** [C4] For a well-formed input dictionary and each of its keys: a value
    ["null"], ["undefined"] or [None] is absent from the output; a reference
    field ([tags], [gallery], [categories]) whose value is [[]] or a string
    that is empty after [strip()] is absent; any other field whose value is
    [""] or [[]] is present with that value unchanged. *)
Theorem clean_field_data_omissions (json_loads : string -> py json)
    (fd out : dict) (k : string) (v : json) :
  NoDup (map fst fd) -> In (k, v) fd -> clean_field_data json_loads fd = Ret out ->
  ((v = JStr "null" \/ v = JStr "undefined" \/ v = JNull) -> dict_get out k = None) /\
  (is_reference_field k = true ->
     (v = JArr [] \/ exists s, v = JStr s /\ strip s = "") -> dict_get out k = None) /\
  (is_reference_field k = false ->
     (v = JStr "" \/ v = JArr []) -> dict_get out k = Some v).
Proof.
  intros Hnd Hin Hrun.
  destruct (clean_field_data_lookup _ _ _ _ _ Hnd Hin Hrun) as [o [Ho Hget]].
  rewrite Hget. split; [|split].
  - intros [-> | [-> | ->]]; simpl in Ho; inversion Ho; reflexivity.
  - intros Href [-> | [s [-> Hs]]].
    + simpl in Ho. rewrite Href in Ho. inversion Ho; reflexivity.
    + unfold clean_field in Ho.
      destruct (String.eqb s "null" || String.eqb s "undefined");
        [inversion Ho; reflexivity|].
      destruct (starts_with_brace s) eqn:Hb.
      * exfalso. exact (strip_brace_nonempty s Hb Hs).
      * simpl in Ho. rewrite Hs, Href in Ho. simpl in Ho.
        inversion Ho; reflexivity.
  - intros Href [-> | ->]; simpl in Ho; rewrite Href in Ho; simpl in Ho;
      inversion Ho; reflexivity.
Qed.

(** A '{...}' string is replaced by the decoded value when [json.loads]
    succeeds, and kept verbatim when it raises [json.JSONDecodeError]. *)
Lemma clean_field_data_brace_string (json_loads : string -> py json)
    (fd out : dict) (k s : string) :
  NoDup (map fst fd) -> In (k, JStr s) fd ->
  starts_with_brace s = true -> ends_with_brace s = true ->
  clean_field_data json_loads fd = Ret out ->
  (forall p, json_loads s = Ret p -> dict_get out k = Some p) /\
  (forall e, json_loads s = Raise e -> is_json_decode_error e = true ->
     dict_get out k = Some (JStr s)).
Proof.
  intros Hnd Hin Hb He Hrun.
  destruct (clean_field_data_lookup _ _ _ _ _ Hnd Hin Hrun) as [o [Ho Hget]].
  rewrite Hget.
  assert (Hnull : String.eqb s "null" || String.eqb s "undefined" = false).
  { destruct s as [|c r]; [discriminate|]. simpl in Hb.
    apply Ascii.eqb_eq in Hb; subst c. reflexivity. }
  unfold clean_field in Ho. rewrite Hnull, Hb, He in Ho. simpl in Ho.
  split.
  - intros p Hp. rewrite Hp in Ho. inversion Ho; reflexivity.
  - intros e Hl Hd. rewrite Hl, Hd in Ho.
    destruct (String.eqb (strip s) "") eqn:Hs.
    + apply String.eqb_eq in Hs. exfalso; exact (strip_brace_nonempty s Hb Hs).
    + simpl in Ho. inversion Ho; reflexivity.
Qed.

(** ** Chunking *)

Lemma py_range_concat {A} (l : list A) (sz f i : nat) :
  (0 < sz)%nat -> (length l - i <= sz * f)%nat ->
  concat (map (fun j => firstn sz (skipn j l)) (py_range f i (length l) sz))
  = skipn i l.
Proof.
  intros Hsz. revert i. induction f as [|f IH]; intros i Hf; simpl.
  - symmetry. apply skipn_all2. lia.
  - destruct (i <? length l)%nat eqn:Hi; simpl.
    + rewrite IH by lia. replace (i + sz)%nat with (sz + i)%nat by lia.
      rewrite <- skipn_skipn. apply firstn_skipn.
    + symmetry. apply skipn_all2. apply Nat.ltb_ge in Hi. lia.
Qed.

Lemma py_range_length (sz f i n : nat) :
  (0 < sz)%nat -> (n - i <= sz * f)%nat ->
  length (py_range f i n sz) = ((n - i + sz - 1) / sz)%nat.
Proof.
  intros Hsz. revert i. induction f as [|f IH]; intros i Hf; simpl.
  - replace (n - i)%nat with 0%nat by lia. symmetry.
    apply Nat.div_small. lia.
  - destruct (i <? n)%nat eqn:Hi; simpl.
    + apply Nat.ltb_lt in Hi. rewrite IH by lia.
      destruct (Nat.le_gt_cases (n - i) sz) as [Hle|Hgt].
      * replace (n - (i + sz))%nat with 0%nat by lia.
        rewrite Nat.div_small by lia.
        apply Nat.div_unique with (r := (n - i - 1)%nat); lia.
      * replace (n - i + sz - 1)%nat with ((n - (i + sz) + sz - 1) + 1 * sz)%nat
          by lia.
        rewrite Nat.div_add by lia. lia.
    + apply Nat.ltb_ge in Hi. replace (n - i)%nat with 0%nat by lia.
      symmetry. apply Nat.div_small. lia.
Qed.

Lemma py_range_nth (sz f i n k j : nat) :
  nth_error (py_range f i n sz) k = Some j -> j = (i + sz * k)%nat.
Proof.
  revert i k. induction f as [|f IH]; intros i k H; simpl in H.
  - destruct k; discriminate.
  - destruct (i <? n)%nat; [|destruct k; discriminate].
    destruct k as [|k]; simpl in H.
    + inversion H; lia.
    + apply IH in H. lia.
Qed.

Lemma chunks_of_partition {A} (l : list A) : chunk_partition l (chunks_of l).
Proof.
  unfold chunk_partition, chunks_of. split; [|split; [|split]].
  - rewrite py_range_concat; [reflexivity| unfold chunk_size; lia ..].
  - rewrite length_map, py_range_length; [f_equal; lia| unfold chunk_size; lia ..].
  - apply Forall_forall. intros c Hc. apply in_map_iff in Hc.
    destruct Hc as [j [<- _]]. rewrite length_firstn. lia.
  - intros k c Hk. rewrite nth_error_map in Hk.
    destruct (nth_error _ k) as [j|] eqn:Hj; simpl in Hk; [|discriminate].
    inversion Hk; subst c. apply py_range_nth in Hj. subst j. reflexivity.
Qed.

(** ** Properties of the batch synchronizer *)

Section SynchronizerProofs.

Variable json_loads : string -> py json.
Variable request : string -> json -> result.

Lemma create_loop_spec (chunks : list (list json)) (results : list result)
    (calls : list call) :
  create_loop request chunks results calls =
  (Ret (results ++ map (fun c => request "POST" (items_body c)) chunks)%list,
   (calls ++ map (fun c => ("POST", items_body c)) chunks)%list).
Proof.
  revert results calls. induction chunks as [|c r IH]; intros results calls; simpl.
  - rewrite !app_nil_r. reflexivity.
  - rewrite IH, <- !app_assoc. reflexivity.
Qed.

Lemma clean_chunk_update_app (l1 l2 : list item) (cleaned : list json) :
  clean_chunk_update json_loads (l1 ++ l2)%list = Ret cleaned ->
  exists c1 c2, clean_chunk_update json_loads l1 = Ret c1 /\
    clean_chunk_update json_loads l2 = Ret c2 /\ cleaned = (c1 ++ c2)%list.
Proof.
  revert cleaned. induction l1 as [|it l1 IH]; intros cleaned H; simpl in *.
  - exists [], cleaned. auto.
  - destruct (field_data_of it) as [fd|e]; simpl in *; [|discriminate].
    destruct (clean_field_value json_loads fd) as [cfd|e]; simpl in *;
      [|discriminate].
    destruct (clean_chunk_update json_loads (l1 ++ l2)) as [crest|e] eqn:Hr;
      simpl in *; [|discriminate].
    destruct (IH _ eq_refl) as [c1 [c2 [H1 [H2 ->]]]].
    rewrite H1. simpl.
    destruct cfd; inversion H; subst; eexists; exists c2; eauto.
Qed.

Lemma clean_chunk_update_length (chunk : list item) (cleaned : list json) :
  clean_chunk_update json_loads chunk = Ret cleaned ->
  (length cleaned <= length chunk)%nat.
Proof.
  revert cleaned. induction chunk as [|it r IH]; intros cleaned H; simpl in *.
  - inversion H; simpl; lia.
  - destruct (field_data_of it) as [fd|e]; simpl in *; [|discriminate].
    destruct (clean_field_value json_loads fd) as [cfd|e]; simpl in *;
      [|discriminate].
    destruct (clean_chunk_update json_loads r) as [crest|e]; simpl in *;
      [|discriminate].
    specialize (IH _ eq_refl).
    destruct cfd; inversion H; subst; simpl; lia.
Qed.

(** Cleaning the whole sequence succeeds exactly chunk by chunk. *)
Lemma clean_chunks_concat (chunks : list (list item)) (cleaned : list json) :
  clean_chunk_update json_loads (concat chunks) = Ret cleaned ->
  exists ccs, Forall2 (fun ch cc => clean_chunk_update json_loads ch = Ret cc)
                chunks ccs /\ concat ccs = cleaned.
Proof.
  revert cleaned. induction chunks as [|ch r IH]; intros cleaned H; simpl in *.
  - inversion H; subst. exists []. split; constructor.
  - destruct (clean_chunk_update_app _ _ _ H) as [c1 [c2 [H1 [H2 ->]]]].
    destruct (IH _ H2) as [ccs [Hf Hc]].
    exists (c1 :: ccs). split; [constructor; assumption|]. simpl; congruence.
Qed.

Lemma update_loop_spec (chunks : list (list item)) (ccs : list (list json))
    (results : list result) (calls : list call) :
  Forall2 (fun ch cc => clean_chunk_update json_loads ch = Ret cc) chunks ccs ->
  update_loop json_loads request chunks results calls =
  (Ret (results ++ map (update_chunk_result request) ccs)%list,
   (calls ++ map (fun cc => ("PATCH", items_body cc)) (filter nonempty ccs))%list).
Proof.
  intros Hf. revert results calls.
  induction Hf as [|ch cc chs ccs' Hc Hf IH]; intros results calls; simpl.
  - rewrite !app_nil_r. reflexivity.
  - rewrite Hc. destruct cc as [|x xs]; simpl; rewrite IH, <- !app_assoc;
      reflexivity.
Qed.

End SynchronizerProofs.

Lemma validate_create_ok (i : nat) (items : list item) :
  Forall (fun it => dict_has it "fieldData" = true) items ->
  validate_create i items = None.
Proof.
  intros H. revert i. induction H as [|it r Hit Hr IH]; intros i; simpl.
  - reflexivity.
  - rewrite Hit. simpl. apply IH.
Qed.

Lemma validate_update_ok (i : nat) (items : list item) :
  Forall (fun it => dict_has it "id" = true /\ dict_has it "fieldData" = true) items ->
  validate_update i items = None.
Proof.
  intros H. revert i. induction H as [|it r [Hid Hfd] Hr IH]; intros i; simpl.
  - reflexivity.
  - rewrite Hid, Hfd. simpl. apply IH.
Qed.

(** The first item lacking a key decides the failure of the validation
    loop of [update_collection_items]. *)
Lemma validate_update_first_bad (i : nat) (items : list item) (bad : item) :
  In bad items ->
  dict_has bad "id" = false \/ dict_has bad "fieldData" = false ->
  exists pre first post r,
    items = (pre ++ first :: post)%list /\
    Forall (fun it => dict_has it "id" = true /\ dict_has it "fieldData" = true) pre /\
    validate_update i items = Some r /\
    ((dict_has first "id" = false /\
      r = failure ("Item " ++ nat_str (i + length pre) ++ " missing required id field"))
     \/
     (dict_has first "id" = true /\ dict_has first "fieldData" = false /\
      r = failure ("Item " ++ py_str (id_of first)
                   ++ " missing required fieldData field"))).
Proof.
  revert i. induction items as [|it r IH]; intros i Hin Hbad; [contradiction|].
  simpl. destruct (dict_has it "id") eqn:Hid.
  - destruct (dict_has it "fieldData") eqn:Hfd.
    + destruct Hin as [-> | Hin].
      * rewrite Hid, Hfd in Hbad. destruct Hbad; discriminate.
      * destruct (IH (S i) Hin Hbad) as [pre [first [post [res [Heq [Hpre [Hv Hr]]]]]]].
        exists (it :: pre), first, post, res.
        split; [simpl; congruence|]. split; [constructor; auto|].
        split; [exact Hv|]. simpl. rewrite <- Nat.add_succ_comm. exact Hr.
    + exists [], it, r. eexists. split; [reflexivity|]. split; [constructor|].
      split; [reflexivity|]. right. auto.
  - exists [], it, r. eexists. split; [reflexivity|]. split; [constructor|].
    split; [reflexivity|]. left. rewrite Nat.add_0_r. auto.
Qed.

Lemma clean_items_create_all_empty (json_loads : string -> py json)
    (items : list item) :
  Forall (fun it => exists fd, dict_get it "fieldData" = Some (JObj fd) /\
                               clean_field_data json_loads fd = Ret []) items ->
  clean_items_create json_loads items = Ret [].
Proof.
  induction 1 as [|it r [fd [Hget Hclean]] Hr IH]; simpl.
  - reflexivity.
  - unfold field_data_of. rewrite Hget. simpl. rewrite Hclean. simpl.
    rewrite IH. reflexivity.
Qed.

(** [C1] (as amended) Create: the cleaned items are split by
    [chunk_partition] (at most 100 per chunk, in order, ceil(N/100) chunks,
    chunk k = cleaned items [100k, 100k+100)) and exactly these chunks are
    POSTed, in order.  Update: the raw items are split by [chunk_partition]
    (ceil(M/100) chunks for M raw items) and each raw chunk is cleaned on
    its own; the cleaned chunks have at most 100 items and concatenate to
    the cleaned sequence, and exactly the non-empty ones are PATCHed, in
    order. *)
Theorem synchronize_chunking (json_loads : string -> py json)
    (request : string -> json -> result) (items : list item) (cleaned : list json) :
  (validate_create 0 items = None ->
   clean_items_create json_loads items = Ret cleaned ->
   chunk_partition cleaned (chunks_of cleaned) /\
   snd (create_collection_items json_loads request items)
   = map (fun c => ("POST", items_body c)) (chunks_of cleaned)) /\
  (validate_update 0 items = None ->
   clean_chunk_update json_loads items = Ret cleaned ->
   chunk_partition items (chunks_of items) /\
   exists ccs,
     Forall2 (fun ch cc => clean_chunk_update json_loads ch = Ret cc)
       (chunks_of items) ccs /\
     concat ccs = cleaned /\
     Forall (fun cc => (length cc <= chunk_size)%nat) ccs /\
     snd (update_collection_items json_loads request items)
     = map (fun cc => ("PATCH", items_body cc)) (filter nonempty ccs)).
Proof.
  split.
  - intros Hv Hc. split; [apply chunks_of_partition|].
    unfold create_collection_items. rewrite Hv, Hc, create_loop_spec. reflexivity.
  - intros Hv Hc. split; [apply chunks_of_partition|].
    destruct (chunks_of_partition items) as [Hcat [_ [Hle _]]].
    rewrite <- Hcat in Hc.
    destruct (clean_chunks_concat _ _ _ Hc) as [ccs [Hf Hcc]].
    exists ccs. split; [exact Hf|]. split; [exact Hcc|]. split.
    + clear Hcc Hc Hcat. induction Hf as [|ch cc chs ccs' Hch Hf IH]; constructor.
      * inversion Hle; subst. apply clean_chunk_update_length in Hch. lia.
      * inversion Hle; subst. apply IH. assumption.
    + unfold update_collection_items. rewrite Hv, (update_loop_spec _ _ _ _ [] [] Hf).
      reflexivity.
Qed.

(** [C2] (as amended) The validation of [update_collection_items] checks,
    item by item in order, only that the keys ['id'] and ['fieldData'] are
    present.  If some item lacks one of them, the first such item decides:
    the call returns a single failure naming the item's index (missing
    ['id']) or its id (missing ['fieldData']), and makes no upstream call.
    When every item has both keys, validation passes whatever their values
    and the call goes on to the chunk loop: an item with any id (an empty
    one included) whose field data cleans to a non-empty mapping is sent
    upstream, and an item whose field data is not a mapping is not rejected
    by validation but makes the cleaning raise [AttributeError]. *)
Theorem update_validation_presence_only (json_loads : string -> py json)
    (request : string -> json -> result) (items : list item) :
  (forall bad, In bad items ->
   dict_has bad "id" = false \/ dict_has bad "fieldData" = false ->
   exists pre first post r,
     items = (pre ++ first :: post)%list /\
     Forall (fun it => dict_has it "id" = true /\ dict_has it "fieldData" = true) pre /\
     success r = false /\
     ((dict_has first "id" = false /\
       r = failure ("Item " ++ nat_str (length pre) ++ " missing required id field"))
      \/
      (dict_has first "id" = true /\ dict_has first "fieldData" = false /\
       r = failure ("Item " ++ py_str (id_of first)
                    ++ " missing required fieldData field"))) /\
     update_collection_items json_loads request items = (Ret [r], [])) /\
  (Forall (fun it => dict_has it "id" = true /\ dict_has it "fieldData" = true) items ->
   update_collection_items json_loads request items
   = update_loop json_loads request (chunks_of items) [] []) /\
  (forall it idv d fd, dict_get it "id" = Some idv ->
   dict_get it "fieldData" = Some (JObj d) ->
   clean_field_data json_loads d = Ret fd -> fd <> [] ->
   update_collection_items json_loads request [it]
   = (Ret [request "PATCH" (items_body [JObj [("id", idv); ("fieldData", JObj fd)]])],
      [("PATCH", items_body [JObj [("id", idv); ("fieldData", JObj fd)]])])) /\
  (forall it idv v, dict_get it "id" = Some idv ->
   dict_get it "fieldData" = Some v -> (forall d, v <> JObj d) ->
   update_collection_items json_loads request [it]
   = (Raise (ExcAttribute "object has no attribute 'items'"), [])).
Proof.
  split; [|split; [|split]].
  - intros bad Hin Hbad.
    destruct (validate_update_first_bad 0 items bad Hin Hbad)
      as [pre [first [post [r [Heq [Hpre [Hv Hr]]]]]]].
    exists pre, first, post, r. split; [exact Heq|]. split; [exact Hpre|].
    split; [destruct Hr as [[_ ->] | [_ [_ ->]]]; reflexivity|].
    split; [exact Hr|].
    unfold update_collection_items. rewrite Hv. reflexivity.
  - intros Hok. unfold update_collection_items.
    rewrite (validate_update_ok 0 items Hok). reflexivity.
  - intros it idv d fd Hid Hfd Hc Hne.
    unfold update_collection_items, validate_update, dict_has.
    rewrite Hid, Hfd. cbn [negb].
    unfold chunks_of. simpl. unfold field_data_of, id_of.
    rewrite Hid, Hfd. cbn [py_bind clean_field_value]. rewrite Hc. cbn [py_bind].
    destruct fd as [|kv fd']; [contradiction|]. reflexivity.
  - intros it idv v Hid Hfd Hnot.
    unfold update_collection_items, validate_update, dict_has.
    rewrite Hid, Hfd. cbn [negb].
    unfold chunks_of. simpl. unfold field_data_of.
    rewrite Hfd. cbn [py_bind].
    destruct v as [| | | | |d]; try reflexivity. exfalso; exact (Hnot d eq_refl).
Qed.

(** [C3] Every chunk is dispatched whatever the results of the earlier
    ones: the outcome holds one result per chunk, in chunk order (Create:
    the upstream result of each chunk; Update: the upstream result of each
    non-empty cleaned chunk and an informational success for an empty one),
    and the derived success and failure counts add up to the number of
    results. *)
Theorem synchronize_all_chunks_attempted (json_loads : string -> py json)
    (request : string -> json -> result) (items : list item) (cleaned : list json) :
  (validate_create 0 items = None ->
   clean_items_create json_loads items = Ret cleaned ->
   create_collection_items json_loads request items
   = (Ret (map (fun c => request "POST" (items_body c)) (chunks_of cleaned)),
      map (fun c => ("POST", items_body c)) (chunks_of cleaned))) /\
  (validate_update 0 items = None ->
   clean_chunk_update json_loads items = Ret cleaned ->
   exists ccs,
     Forall2 (fun ch cc => clean_chunk_update json_loads ch = Ret cc)
       (chunks_of items) ccs /\
     update_collection_items json_loads request items
     = (Ret (map (update_chunk_result request) ccs),
        map (fun cc => ("PATCH", items_body cc)) (filter nonempty ccs))) /\
  (forall results : list result,
     (successful_batches results + failed_batches results = length results)%nat).
Proof.
  split; [|split].
  - intros Hv Hc. unfold create_collection_items.
    rewrite Hv, Hc, create_loop_spec. reflexivity.
  - intros Hv Hc.
    destruct (chunks_of_partition items) as [Hcat _].
    rewrite <- Hcat in Hc.
    destruct (clean_chunks_concat _ _ _ Hc) as [ccs [Hf _]].
    exists ccs. split; [exact Hf|].
    unfold update_collection_items. rewrite Hv, (update_loop_spec _ _ _ _ [] [] Hf).
    reflexivity.
  - intros results. unfold successful_batches, failed_batches.
    induction results as [|r rs IH]; simpl; [reflexivity|].
    destruct (success r); simpl; lia.
Qed.

(** [C9] A Create call whose items all clean to an empty mapping returns
    an empty outcome (zero successes, zero failures) and makes no upstream
    call; the route handler, which is only reached with a non-empty item
    list, then answers with overall success. *)
Theorem create_all_empty_outcome (json_loads : string -> py json)
    (request : string -> json -> result) (items : list item) :
  Forall (fun it => exists fd, dict_get it "fieldData" = Some (JObj fd) /\
                               clean_field_data json_loads fd = Ret []) items ->
  create_collection_items json_loads request items = (Ret [], []) /\
  successful_batches [] = 0%nat /\ failed_batches [] = 0%nat /\
  (items <> [] ->
   create_handler json_loads request items
   = Ret (JObj [("success", JBool true);
                ("message", JStr ("Successfully created " ++ nat_str (length items)
                                  ++ " new items in 0 batches"));
                ("results", JArr [])], 200%Z)).
Proof.
  intros Hall.
  assert (Hv : validate_create 0 items = None).
  { apply validate_create_ok. eapply Forall_impl; [|exact Hall].
    intros it [fd [Hget _]]. unfold dict_has. rewrite Hget. reflexivity. }
  assert (Hcreate : create_collection_items json_loads request items = (Ret [], [])).
  { unfold create_collection_items.
    rewrite Hv, (clean_items_create_all_empty _ _ Hall). reflexivity. }
  split; [exact Hcreate|]. split; [reflexivity|]. split; [reflexivity|].
  intros Hne. destruct items as [|it rest]; [contradiction|].
  inversion Hall as [|? ? [fd [Hget _]] _]; subst.
  unfold create_handler. rewrite Hget, Hcreate. reflexivity.
Qed.

(** ** Properties of the upstream client *)

Lemma py_int_raises_value_error (s : string) (e : exc) :
  py_int s = Raise e -> exists m, e = ExcValue m.
Proof.
  unfold py_int. destruct (list_ascii_of_string (strip s)) as [|c r].
  - simpl. intros H. inversion H. eexists; reflexivity.
  - destruct (Ascii.eqb c "-"%char), (Ascii.eqb c "+"%char); simpl;
      repeat match goal with
      | |- context [if ?b then _ else _] => destruct b
      end; intros H; inversion H; eexists; reflexivity.
Qed.

Lemma check_remaining_ok (r : response) :
  remaining_header_ok r -> check_remaining r = Ret tt.
Proof.
  unfold remaining_header_ok, check_remaining.
  destruct (header_get (headers r) "X-RateLimit-Remaining") as [s|]; [|reflexivity].
  intros [-> | [n Hn]]; [reflexivity|].
  destruct (String.eqb s ""); [reflexivity|]. rewrite Hn. reflexivity.
Qed.

Lemma supported_method (meth : string) :
  meth = "GET" \/ meth = "POST" \/ meth = "PATCH" ->
  negb (String.eqb meth "GET" || String.eqb meth "POST" || String.eqb meth "PATCH")
  = false.
Proof. intros [-> | [-> | ->]]; reflexivity. Qed.

Section ClientProofs.

Variable json_loads : string -> py json.
Variable api_token : string.
Variable transport : string -> json -> py response.
Variable meth : string.
Variable data : json.
Variable resp : response.

Hypothesis token_set : api_token <> "".
Hypothesis method_ok : meth = "GET" \/ meth = "POST" \/ meth = "PATCH".
Hypothesis sent : transport meth data = Ret resp.

Lemma make_request_unfold :
  make_request json_loads api_token transport meth data =
  match request_body json_loads transport meth data with
  | Ret res => res
  | Raise e => handle_exception e
  end.
Proof.
  unfold make_request. rewrite (supported_method _ method_ok).
  destruct (String.eqb api_token "") eqn:Ht; [|reflexivity].
  apply String.eqb_eq in Ht. contradiction.
Qed.

(** [C6] (as amended) When the X-RateLimit-Remaining header is absent, empty
    or an integer: a 429 response yields the rate-limit failure quoting the
    Retry-After header, or "60" without one; a 401 response yields the
    fixed invalid-token failure whatever its body. *)
Theorem make_request_status_messages :
  remaining_header_ok resp ->
  ((status_code resp = 429)%Z ->
   make_request json_loads api_token transport meth data
   = failure ("Rate limit exceeded. Please wait "
              ++ match header_get (headers resp) "Retry-After" with
                 | Some v => v | None => "60" end ++ " seconds.")) /\
  ((status_code resp = 401)%Z ->
   make_request json_loads api_token transport meth data
   = failure "Invalid API token. Please check your Webflow API token.").
Proof.
  intros Hok. rewrite make_request_unfold. unfold request_body.
  rewrite sent. simpl. rewrite (check_remaining_ok _ Hok). simpl.
  split; intros Hc; rewrite Hc; reflexivity.
Qed.

(** [C7] (code_bug) For a status below 400 whose body is not JSON, the
    [requests.exceptions.JSONDecodeError] raised by [response.json()] is a
    [RequestException], so the third [except] clause answers with
    "Network error: ..." and the [json.JSONDecodeError] clause that would
    give "Invalid JSON response from Webflow API" is never reached. *)
Theorem make_request_success_body_not_json (m : string) :
  remaining_header_ok resp -> (status_code resp < 400)%Z ->
  json_loads (text resp) = Raise (ExcJSONDecode m) ->
  make_request json_loads api_token transport meth data
  = failure ("Network error: " ++ m).
Proof.
  intros Hok Hlt Hbad. rewrite make_request_unfold. unfold request_body.
  rewrite sent. simpl. rewrite (check_remaining_ok _ Hok). simpl.
  destruct (status_code resp =? 401)%Z eqn:H1;
    [apply Z.eqb_eq in H1; lia|].
  destruct (status_code resp =? 404)%Z eqn:H2;
    [apply Z.eqb_eq in H2; lia|].
  destruct (status_code resp =? 429)%Z eqn:H3;
    [apply Z.eqb_eq in H3; lia|].
  destruct (400 <=? status_code resp)%Z eqn:H4;
    [apply Z.leb_le in H4; lia|].
  unfold response_json. rewrite Hbad. reflexivity.
Qed.

(** [C10] A non-empty X-RateLimit-Remaining header that [int()] rejects
    makes [int(remaining)] raise [ValueError], caught by the last [except]
    clause: the call fails with "Unexpected error: ..." whatever the
    status. *)
Theorem make_request_bad_remaining_header (s : string) :
  header_get (headers resp) "X-RateLimit-Remaining" = Some s -> s <> "" ->
  (exists e, py_int s = Raise e) ->
  exists m, make_request json_loads api_token transport meth data
            = failure ("Unexpected error: " ++ m).
Proof.
  intros Hh Hne [e He]. destruct (py_int_raises_value_error _ _ He) as [m ->].
  exists m. rewrite make_request_unfold. unfold request_body.
  rewrite sent. simpl. unfold check_remaining. rewrite Hh.
  destruct (String.eqb s "") eqn:Hs; [apply String.eqb_eq in Hs; contradiction|].
  rewrite He. reflexivity.
Qed.

End ClientProofs.

(** ** The field normalizer and exceptions of [json.loads] *)

(** [C5] (code_bug) A '{...}' string on which [json.loads] raises an
    exception other than [json.JSONDecodeError] (CPython raises
    [ValueError] for an integer of more than 4300 digits) makes
    [clean_field_data] raise: the [except json.JSONDecodeError] clause does
    not catch it, and a Create call on such an item raises too. *)
Theorem clean_field_data_other_decoder_error (json_loads : string -> py json)
    (request : string -> json -> result) (k s : string) (rest : dict) (e : exc) :
  starts_with_brace s = true -> ends_with_brace s = true ->
  json_loads s = Raise e -> is_json_decode_error e = false ->
  clean_field_data json_loads ((k, JStr s) :: rest) = Raise e /\
  create_collection_items json_loads request
    [[("fieldData", JObj ((k, JStr s) :: rest))]] = (Raise e, []).
Proof.
  intros Hb He Hl Hd.
  assert (Hnull : String.eqb s "null" || String.eqb s "undefined" = false).
  { destruct s as [|c r]; [discriminate|]. simpl in Hb.
    apply Ascii.eqb_eq in Hb; subst c. reflexivity. }
  assert (Hc : clean_field_data json_loads ((k, JStr s) :: rest) = Raise e).
  { unfold clean_field_data. simpl. rewrite Hnull, Hb, He. simpl.
    rewrite Hl, Hd. reflexivity. }
  split; [exact Hc|].
  unfold create_collection_items, clean_items_create, field_data_of,
    validate_create, dict_has.
  simpl dict_get. cbv beta iota. unfold clean_field_value.
  cbn [negb py_bind]. rewrite Hc. reflexivity.
Qed.

(** ** Properties of the rate limiter *)

Open Scope Q_scope.

(** [C8] (as amended) For calls made one at a time: a call arriving less
    than [min_delay] after the stored timestamp sleeps exactly the
    difference, a later one does not sleep, the stored timestamp becomes
    the clock after the sleep, and along a flow of calls the stored
    timestamps are at least [min_delay] apart. *)
Theorem rate_limit_sequential_spacing :
  (forall last now overshoot, 0 <= overshoot ->
   let p := rate_limit_delay last now overshoot in
   (now - last < min_delay -> fst p == min_delay - (now - last)) /\
   (min_delay <= now - last -> fst p == 0) /\
   snd p == now + fst p + overshoot /\
   last + min_delay <= snd p) /\
  (forall last calls, Forall (fun c => 0 <= snd c) calls ->
   well_spaced (last :: throttle_run last calls)).
Proof.
  assert (Hone : forall last now overshoot, 0 <= overshoot ->
            last + min_delay <= snd (rate_limit_delay last now overshoot)).
  { intros last now o Ho. unfold rate_limit_delay, rate_limit_sleep, min_delay.
    simpl. destruct (Qlt_le_dec (now - last) 1); lra. }
  split.
  - intros last now o Ho. simpl. split; [|split; [|split]].
    + intros H. unfold rate_limit_delay, rate_limit_sleep. simpl.
      destruct (Qlt_le_dec (now - last) min_delay); [reflexivity|].
      unfold min_delay in *. lra.
    + intros H. unfold rate_limit_delay, rate_limit_sleep. simpl.
      destruct (Qlt_le_dec (now - last) min_delay); [|reflexivity].
      unfold min_delay in *. lra.
    + reflexivity.
    + apply Hone. exact Ho.
  - intros last calls Hf. revert last.
    induction Hf as [|[now o] r Ho Hf IH]; intros last; simpl.
    + exact I.
    + split; [apply Hone; exact Ho|]. apply IH.
Qed.

Close Scope Q_scope.

(** ** Witnesses and counterexamples *)

Lemma clean_field_data_omissions_witness :
  dict_get [("name", JStr "")] "name" = Some (JStr "") /\
  dict_get [("name", JStr "")] "tags" = None.
Proof.
  assert (Hnd : NoDup (map fst [("tags", JStr "  "); ("name", JStr "");
                                 ("x", JStr "null")])).
  { simpl. repeat constructor; simpl; intuition discriminate. }
  assert (Hrun : clean_field_data sample_json_loads
                   [("tags", JStr "  "); ("name", JStr ""); ("x", JStr "null")]
                 = Ret [("name", JStr "")]) by (vm_compute; reflexivity).
  split.
  - exact (proj2 (proj2 (clean_field_data_omissions sample_json_loads _ _
             "name" (JStr "") Hnd (or_intror (or_introl eq_refl)) Hrun))
             eq_refl (or_introl eq_refl)).
  - exact (proj1 (proj2 (clean_field_data_omissions sample_json_loads _ _
             "tags" (JStr "  ") Hnd (or_introl eq_refl) Hrun))
             eq_refl (or_intror (ex_intro _ "  " (conj eq_refl eq_refl)))).
Defined.

Lemma clean_field_data_other_decoder_error_witness :
  clean_field_data sample_json_loads [("image", JStr big_int_document)]
  = Raise (ExcValue ("Exceeds the limit (4300 digits) for integer string "
                     ++ "conversion: value has 4301 digits")).
Proof.
  exact (proj1 (clean_field_data_other_decoder_error sample_json_loads
           sample_request "image" big_int_document [] _
           (ltac:(vm_compute; reflexivity)) (ltac:(vm_compute; reflexivity))
           (ltac:(vm_compute; reflexivity)) eq_refl)).
Defined.

(** Update: one dropped item among the first 100 shifts the chunk
    boundaries of the cleaned sequence; 100 cleaned items go out in 2
    chunks (99 + 1), not ceil(100/100) = 1. *)
Lemma synchronize_chunking_counterexample :
  match clean_chunk_update sample_json_loads first_item_dropped with
  | Ret cleaned =>
      length cleaned = 100%nat /\
      ((length cleaned + chunk_size - 1) / chunk_size)%nat = 1%nat /\
      length (snd (update_collection_items sample_json_loads sample_request
                     first_item_dropped)) = 2%nat /\
      snd (update_collection_items sample_json_loads sample_request first_item_dropped)
      <> map (fun c => ("PATCH", items_body c)) (chunks_of cleaned)
  | Raise _ => False
  end.
Proof.
  vm_compute. split; [reflexivity|]. split; [reflexivity|].
  split; [reflexivity|]. intros H. apply (f_equal (@length _)) in H.
  discriminate.
Qed.

Lemma synchronize_chunking_witness :
  chunk_partition numbered_cleaned (chunks_of numbered_cleaned) /\
  length (snd (create_collection_items sample_json_loads sample_request
                 numbered_items)) = 3%nat.
Proof.
  destruct (proj1 (synchronize_chunking sample_json_loads sample_request
                     numbered_items numbered_cleaned)
              (ltac:(vm_compute; reflexivity)) (ltac:(vm_compute; reflexivity)))
    as [Hp Hc].
  split; [exact Hp|]. rewrite Hc. vm_compute. reflexivity.
Defined.

(** An item with an empty id passes validation and is sent upstream. *)
Lemma update_validation_presence_only_counterexample :
  validate_update 0 [[("id", JStr ""); ("fieldData", JObj [("name", JStr "x")])]]
  = None /\
  snd (update_collection_items sample_json_loads sample_request
         [[("id", JStr ""); ("fieldData", JObj [("name", JStr "x")])]])
  = [("PATCH", items_body [JObj [("id", JStr "");
                                 ("fieldData", JObj [("name", JStr "x")])]])].
Proof. vm_compute. split; reflexivity. Qed.

Lemma update_validation_presence_only_witness :
  (exists r, update_collection_items sample_json_loads sample_request
               [sample_item (JStr "x"); [("fieldData", JObj [])]] = (Ret [r], [])) /\
  update_collection_items sample_json_loads sample_request
    [[("id", JStr ""); ("fieldData", JObj [("name", JStr "x")])]]
  = (Ret [RSuccess (JObj [])],
     [("PATCH", items_body [JObj [("id", JStr "");
                                  ("fieldData", JObj [("name", JStr "x")])]])]) /\
  update_collection_items sample_json_loads sample_request
    [[("id", JStr "a"); ("fieldData", JStr "oops")]]
  = (Raise (ExcAttribute "object has no attribute 'items'"), []) /\
  update_collection_items sample_json_loads sample_request
    [sample_item (JStr "x"); [("id", JNull); ("fieldData", JArr [])]]
  = update_loop sample_json_loads sample_request
      (chunks_of [sample_item (JStr "x"); [("id", JNull); ("fieldData", JArr [])]]) [] [].
Proof.
  split; [|split; [|split]].
  - destruct (proj1 (update_validation_presence_only sample_json_loads sample_request
                       [sample_item (JStr "x"); [("fieldData", JObj [])]])
                [("fieldData", JObj [])]
                (ltac:(simpl; auto)) (ltac:(left; vm_compute; reflexivity)))
      as [pre [first [post [r [_ [_ [_ [_ Hu]]]]]]]].
    exists r. exact Hu.
  - assert (Hc : clean_field_data sample_json_loads [("name", JStr "x")]
                 = Ret [("name", JStr "x")]) by (vm_compute; reflexivity).
    exact (proj1 (proj2 (proj2 (update_validation_presence_only sample_json_loads
             sample_request [[("id", JStr ""); ("fieldData", JObj [("name", JStr "x")])]])))
             [("id", JStr ""); ("fieldData", JObj [("name", JStr "x")])] (JStr "")
             [("name", JStr "x")] [("name", JStr "x")] eq_refl eq_refl Hc
             ltac:(discriminate)).
  - assert (Hnot : forall d, JStr "oops" <> JObj d) by (intros d H; discriminate H).
    exact (proj2 (proj2 (proj2 (update_validation_presence_only sample_json_loads
             sample_request [[("id", JStr "a"); ("fieldData", JStr "oops")]])))
             [("id", JStr "a"); ("fieldData", JStr "oops")] (JStr "a") (JStr "oops")
             eq_refl eq_refl Hnot).
  - apply (proj1 (proj2 (update_validation_presence_only sample_json_loads
             sample_request [sample_item (JStr "x"); [("id", JNull); ("fieldData", JArr [])]]))).
    repeat constructor.
Defined.

(** Three chunks, the second rejected: three results, two successes and one
    failure. *)
Lemma synchronize_all_chunks_attempted_witness :
  fst (create_collection_items sample_json_loads second_chunk_fails numbered_items)
  = Ret [RSuccess (JObj []); RFailure (JStr "HTTP 400 error") None (Some 400%Z);
         RSuccess (JObj [])] /\
  successful_batches [RSuccess (JObj []); RFailure (JStr "HTTP 400 error") None
                        (Some 400%Z); RSuccess (JObj [])] = 2%nat /\
  failed_batches [RSuccess (JObj []); RFailure (JStr "HTTP 400 error") None
                    (Some 400%Z); RSuccess (JObj [])] = 1%nat.
Proof.
  rewrite (proj1 (synchronize_all_chunks_attempted sample_json_loads
                    second_chunk_fails numbered_items numbered_cleaned)
             (ltac:(vm_compute; reflexivity)) (ltac:(vm_compute; reflexivity))).
  vm_compute. split; [reflexivity|]. split; reflexivity.
Defined.

Lemma create_all_empty_outcome_witness :
  create_collection_items sample_json_loads sample_request
    [[("fieldData", JObj [("name", JStr "null"); ("tags", JArr [])])]]
  = (Ret [], []).
Proof.
  assert (Hc : clean_field_data sample_json_loads
                 [("name", JStr "null"); ("tags", JArr [])] = Ret [])
    by (vm_compute; reflexivity).
  apply (create_all_empty_outcome sample_json_loads sample_request
           [[("fieldData", JObj [("name", JStr "null"); ("tags", JArr [])])]]).
  constructor; [|constructor].
  exists [("name", JStr "null"); ("tags", JArr [])]. split; [reflexivity | exact Hc].
Defined.

(** A 401 response with a malformed X-RateLimit-Remaining header does not
    yield the invalid-token message. *)
Lemma make_request_status_messages_counterexample :
  make_request sample_json_loads "token"
    (sample_transport 401 [("X-RateLimit-Remaining", "abc")] "{}") "GET" JNull
  = failure ("Unexpected error: invalid literal for int() with base 10: 'abc'") /\
  make_request sample_json_loads "token"
    (sample_transport 401 [("X-RateLimit-Remaining", "abc")] "{}") "GET" JNull
  <> failure "Invalid API token. Please check your Webflow API token.".
Proof. vm_compute. split; [reflexivity | discriminate]. Qed.

Lemma make_request_status_messages_witness :
  make_request sample_json_loads "token"
    (sample_transport 429 [("Retry-After", "45"); ("X-RateLimit-Remaining", "3")] "")
    "PATCH" JNull
  = failure "Rate limit exceeded. Please wait 45 seconds.".
Proof.
  assert (Hok : remaining_header_ok
                  (mkResponse 429 [("Retry-After", "45");
                                   ("X-RateLimit-Remaining", "3")] "")).
  { vm_compute. right. exists 3%Z. reflexivity. }
  exact (proj1 (make_request_status_messages sample_json_loads "token"
    (sample_transport 429 [("Retry-After", "45"); ("X-RateLimit-Remaining", "3")] "")
    "PATCH" JNull _ ltac:(discriminate) (or_intror (or_intror eq_refl)) eq_refl
    Hok) eq_refl).
Defined.

Lemma make_request_success_body_not_json_witness :
  make_request sample_json_loads "token" (sample_transport 200 [] "not json")
    "GET" JNull
  = failure "Network error: Expecting value: line 1 column 1 (char 0)".
Proof.
  assert (Hl : sample_json_loads "not json"
               = Raise (ExcJSONDecode "Expecting value: line 1 column 1 (char 0)"))
    by (vm_compute; reflexivity).
  exact (make_request_success_body_not_json sample_json_loads "token"
    (sample_transport 200 [] "not json") "GET" JNull
    (mkResponse 200 [] "not json") ltac:(discriminate)
    (or_introl eq_refl) eq_refl "Expecting value: line 1 column 1 (char 0)"
    I eq_refl Hl).
Defined.

Lemma make_request_bad_remaining_header_witness :
  exists m, make_request sample_json_loads "token"
    (sample_transport 200 [("x-ratelimit-remaining", "abc")] "{}") "GET" JNull
    = failure ("Unexpected error: " ++ m).
Proof.
  assert (Hh : header_get [("x-ratelimit-remaining", "abc")] "X-RateLimit-Remaining"
               = Some "abc") by (vm_compute; reflexivity).
  assert (He : exists e, py_int "abc" = Raise e).
  { eexists. vm_compute. reflexivity. }
  exact (make_request_bad_remaining_header sample_json_loads "token"
    (sample_transport 200 [("x-ratelimit-remaining", "abc")] "{}") "GET" JNull
    (mkResponse 200 [("x-ratelimit-remaining", "abc")] "{}")
    ltac:(discriminate) (or_introl eq_refl) eq_refl "abc" Hh ltac:(discriminate) He).
Defined.

Open Scope Q_scope.

(** Two request flows interleaved by the threaded server: both read the
    clock at 10 before either stores its timestamp, neither sleeps, and
    both calls go out at 10. *)
Lemma rate_limit_sequential_spacing_counterexample :
  match run (mkLimiter 0 10 [TReady; TReady] []) [Enter 0; Enter 1; Wake 0; Wake 1] with
  | Some s => outbound s = [10; 10] /\ ~ well_spaced (outbound s)
  | None => False
  end.
Proof.
  vm_compute. split; [reflexivity|]. intros [H _]. apply H. reflexivity.
Qed.

Lemma rate_limit_sequential_spacing_witness :
  well_spaced (0 :: throttle_run 0 [(10, 0); (10, 0); (25 # 2, 1 # 10)]).
Proof.
  apply (proj2 rate_limit_sequential_spacing).
  repeat constructor; simpl; lra.
Defined.

Close Scope Q_scope.

(** ** Further properties of the upstream client *)

Lemma handle_exception_failure (e : exc) : success (handle_exception e) = false.
Proof.
  unfold handle_exception.
  destruct (is_timeout e), (is_connection_error e), (is_request_exception e),
    (is_json_decode_error e); reflexivity.
Qed.

Lemma error_response_failure (json_loads : string -> py json) (r : response) :
  success (error_response json_loads r) = false.
Proof.
  unfold error_response.
  destruct (response_json json_loads r) as [[]|e]; cbn [py_bind]; try reflexivity.
  match goal with |- context [if ?b then _ else _] => destruct b end; reflexivity.
Qed.

Lemma check_remaining_inv (r : response) :
  check_remaining r = Ret tt -> remaining_header_ok r.
Proof.
  unfold check_remaining, remaining_header_ok.
  destruct (header_get (headers r) "X-RateLimit-Remaining") as [s|]; [|trivial].
  destruct (String.eqb s "") eqn:Hs.
  - intros _. left. apply String.eqb_eq. exact Hs.
  - destruct (py_int s) as [n|e] eqn:Hn; cbn [py_bind]; [|discriminate].
    intros _. right. exists n. reflexivity.
Qed.

Lemma supported_method_inv (meth : string) :
  negb (String.eqb meth "GET" || String.eqb meth "POST" || String.eqb meth "PATCH")
  = false -> meth = "GET" \/ meth = "POST" \/ meth = "PATCH".
Proof.
  destruct (String.eqb meth "GET") eqn:H1; [left; apply String.eqb_eq; exact H1|].
  destruct (String.eqb meth "POST") eqn:H2; [right; left; apply String.eqb_eq; exact H2|].
  destruct (String.eqb meth "PATCH") eqn:H3;
    [right; right; apply String.eqb_eq; exact H3|].
  discriminate.
Qed.

Lemma unsupported_method (meth : string) :
  meth <> "GET" -> meth <> "POST" -> meth <> "PATCH" ->
  negb (String.eqb meth "GET" || String.eqb meth "POST" || String.eqb meth "PATCH")
  = true.
Proof.
  intros H1 H2 H3.
  rewrite (proj2 (String.eqb_neq _ _) H1), (proj2 (String.eqb_neq _ _) H2),
    (proj2 (String.eqb_neq _ _) H3).
  reflexivity.
Qed.

(** Reaching the status dispatch: a token is set, the method is supported,
    the transport answered and the rate-limit header was accepted. *)
Ltac reach_status Htok Hm Hsent Hok :=
  unfold make_request;
  rewrite (proj2 (String.eqb_neq _ _) Htok), (supported_method _ Hm);
  unfold request_body; rewrite Hsent; cbn [py_bind];
  rewrite (check_remaining_ok _ Hok); cbn [py_bind].

Lemma make_request_success_path (json_loads : string -> py json)
    (api_token : string) (transport : string -> json -> py response)
    (meth : string) (data : json) (resp : response) (v : json) :
  api_token <> "" -> (meth = "GET" \/ meth = "POST" \/ meth = "PATCH") ->
  transport meth data = Ret resp -> remaining_header_ok resp ->
  (status_code resp < 400)%Z -> json_loads (text resp) = Ret v ->
  make_request json_loads api_token transport meth data = RSuccess v.
Proof.
  intros Htok Hm Hsent Hok Hlt Hl. reach_status Htok Hm Hsent Hok.
  rewrite (proj2 (Z.eqb_neq (status_code resp) 401) ltac:(lia)),
    (proj2 (Z.eqb_neq (status_code resp) 404) ltac:(lia)),
    (proj2 (Z.eqb_neq (status_code resp) 429) ltac:(lia)),
    (proj2 (Z.leb_gt 400 _) Hlt).
  unfold response_json. rewrite Hl. reflexivity.
Qed.

Section ClientExtras.

Variable json_loads : string -> py json.
Variable api_token : string.
Variable transport : string -> json -> py response.
Variable meth : string.
Variable data : json.

(** [X1] Without a token every call fails with "API token not configured",
    whatever the transport does; with a token, a method other than GET, POST
    and PATCH fails with "Unsupported method: <method>", again whatever the
    transport does. *)
Theorem make_request_fail_fast :
  (forall tr, make_request json_loads "" tr meth data
              = failure "API token not configured") /\
  (api_token <> "" -> meth <> "GET" -> meth <> "POST" -> meth <> "PATCH" ->
   forall tr, make_request json_loads api_token tr meth data
              = failure ("Unsupported method: " ++ meth)).
Proof.
  split.
  - intros tr. reflexivity.
  - intros Htok H1 H2 H3 tr. unfold make_request.
    rewrite (proj2 (String.eqb_neq _ _) Htok), (unsupported_method _ H1 H2 H3).
    reflexivity.
Qed.

(** [X2] A 404 response (with an acceptable X-RateLimit-Remaining header)
    yields the fixed not-found failure, whatever its body. *)
Theorem make_request_not_found (resp : response) :
  api_token <> "" -> (meth = "GET" \/ meth = "POST" \/ meth = "PATCH") ->
  transport meth data = Ret resp -> remaining_header_ok resp ->
  status_code resp = 404%Z ->
  make_request json_loads api_token transport meth data
  = failure "Resource not found. Please verify site/collection IDs.".
Proof.
  intros Htok Hm Hsent Hok H404. reach_status Htok Hm Hsent Hok.
  rewrite H404. reflexivity.
Qed.

(** [X3] When the X-RateLimit-Remaining header is absent, empty or an
    integer, any other status of at least 400 with a JSON object body yields a
    failure carrying the status code, the body's "message" (or
    "HTTP <code> error" without one) and, when present, the body's
    "details", else its "errors". *)
Theorem make_request_error_fields (resp : response) (d : dict) :
  api_token <> "" -> (meth = "GET" \/ meth = "POST" \/ meth = "PATCH") ->
  transport meth data = Ret resp -> remaining_header_ok resp ->
  (400 <= status_code resp)%Z -> status_code resp <> 401%Z ->
  status_code resp <> 404%Z -> status_code resp <> 429%Z ->
  json_loads (text resp) = Ret (JObj d) ->
  make_request json_loads api_token transport meth data
  = RFailure (match dict_get d "message" with
              | Some m => m
              | None => JStr ("HTTP " ++ Z_str (status_code resp) ++ " error")
              end)
             (match dict_get d "details" with
              | Some x => Some x
              | None => dict_get d "errors"
              end)
             (Some (status_code resp)).
Proof.
  intros Htok Hm Hsent Hok Hge H1 H2 H3 Hl. reach_status Htok Hm Hsent Hok.
  rewrite (proj2 (Z.eqb_neq _ _) H1), (proj2 (Z.eqb_neq _ _) H2),
    (proj2 (Z.eqb_neq _ _) H3), (proj2 (Z.leb_le _ _) Hge).
  unfold error_response, response_json. rewrite Hl. cbn [py_bind].
  unfold dict_has.
  destruct (dict_get d "details"), (dict_get d "errors"); reflexivity.
Qed.

(** [X4] When the X-RateLimit-Remaining header is absent, empty or an
    integer, a status of at least 400 other than 401, 404 and 429 whose body is
    not JSON, or is JSON but not an object, yields
    "HTTP <code> error - could not parse response" without a status code. *)
Theorem make_request_error_unparsed (resp : response) :
  api_token <> "" -> (meth = "GET" \/ meth = "POST" \/ meth = "PATCH") ->
  transport meth data = Ret resp -> remaining_header_ok resp ->
  (400 <= status_code resp)%Z -> status_code resp <> 401%Z ->
  status_code resp <> 404%Z -> status_code resp <> 429%Z ->
  (exists e, json_loads (text resp) = Raise e) \/
  (exists v, json_loads (text resp) = Ret v /\ forall d, v <> JObj d) ->
  make_request json_loads api_token transport meth data
  = failure ("HTTP " ++ Z_str (status_code resp) ++ " error - could not parse response").
Proof.
  intros Htok Hm Hsent Hok Hge H1 H2 H3 Hbody. reach_status Htok Hm Hsent Hok.
  rewrite (proj2 (Z.eqb_neq _ _) H1), (proj2 (Z.eqb_neq _ _) H2),
    (proj2 (Z.eqb_neq _ _) H3), (proj2 (Z.leb_le _ _) Hge).
  unfold error_response, response_json.
  destruct Hbody as [[e He] | [v [Hv Hnot]]].
  - rewrite He. destruct e; reflexivity.
  - rewrite Hv. cbn [py_bind].
    destruct v as [| | | | |d]; try reflexivity.
    exfalso; exact (Hnot d eq_refl).
Qed.

(** [X5] Exceptions of the transport are mapped by the [except] clauses: a
    timeout, a connection error, any other [RequestException] and any other
    exception each get their own failure message. *)
Theorem make_request_transport_errors :
  api_token <> "" -> (meth = "GET" \/ meth = "POST" \/ meth = "PATCH") ->
  (transport meth data = Raise ExcTimeout ->
   make_request json_loads api_token transport meth data
   = failure "Request timeout - Webflow API took too long to respond") /\
  (transport meth data = Raise ExcConnection ->
   make_request json_loads api_token transport meth data
   = failure "Connection error - Unable to reach Webflow API") /\
  (forall m, transport meth data = Raise (ExcRequest m) ->
   make_request json_loads api_token transport meth data
   = failure ("Network error: " ++ m)) /\
  (forall m, transport meth data = Raise (ExcOther m) ->
   make_request json_loads api_token transport meth data
   = failure ("Unexpected error: " ++ m)).
Proof.
  intros Htok Hm.
  unfold make_request.
  rewrite (proj2 (String.eqb_neq _ _) Htok), (supported_method _ Hm).
  unfold request_body.
  repeat split; intros; match goal with H : transport _ _ = _ |- _ => rewrite H end;
    reflexivity.
Qed.

(** [X6] A call never answers with a bare success message, and it answers
    with a success carrying [v] exactly when a token is set, the method is
    supported, the transport returned a response whose rate-limit header is
    acceptable and whose status is below 400, and the body decodes to
    [v]. *)
Theorem make_request_success_iff :
  (forall m, make_request json_loads api_token transport meth data <> RSuccessMsg m) /\
  (forall v,
   make_request json_loads api_token transport meth data = RSuccess v <->
   api_token <> "" /\ (meth = "GET" \/ meth = "POST" \/ meth = "PATCH") /\
   exists resp, transport meth data = Ret resp /\ remaining_header_ok resp /\
     (status_code resp < 400)%Z /\ json_loads (text resp) = Ret v).
Proof.
  assert (Hshape : forall r, make_request json_loads api_token transport meth data = r ->
            success r = true ->
            api_token <> "" /\ (meth = "GET" \/ meth = "POST" \/ meth = "PATCH") /\
            exists resp v, transport meth data = Ret resp /\ remaining_header_ok resp /\
              (status_code resp < 400)%Z /\ json_loads (text resp) = Ret v /\
              r = RSuccess v).
  { intros r Hr Hs. unfold make_request in Hr.
    destruct (String.eqb api_token "") eqn:Ht; [subst r; discriminate|].
    destruct (negb (String.eqb meth "GET" || String.eqb meth "POST"
                    || String.eqb meth "PATCH")) eqn:Hm; [subst r; discriminate|].
    split; [apply String.eqb_neq; exact Ht|].
    split; [apply supported_method_inv; exact Hm|].
    destruct (request_body json_loads transport meth data) as [res|e] eqn:Hb;
      [|subst r; rewrite handle_exception_failure in Hs; discriminate].
    subst res. unfold request_body in Hb.
    destruct (transport meth data) as [resp|e]; cbn [py_bind] in Hb; [|discriminate].
    destruct (check_remaining resp) as [[]|e] eqn:Hc; cbn [py_bind] in Hb;
      [|discriminate].
    destruct (status_code resp =? 401)%Z; [inversion Hb; subst r; discriminate|].
    destruct (status_code resp =? 404)%Z; [inversion Hb; subst r; discriminate|].
    destruct (status_code resp =? 429)%Z; [inversion Hb; subst r; discriminate|].
    destruct (400 <=? status_code resp)%Z eqn:H4;
      [inversion Hb; subst r; rewrite error_response_failure in Hs; discriminate|].
    unfold response_json in Hb.
    destruct (json_loads (text resp)) as [x|[]] eqn:Hl; cbn [py_bind] in Hb;
      try discriminate.
    inversion Hb; subst r.
    exists resp, x. split; [reflexivity|]. split; [apply check_remaining_inv; exact Hc|].
    split; [apply Z.leb_gt; exact H4|]. split; [exact Hl | reflexivity]. }
  split.
  - intros m Hr.
    destruct (Hshape _ Hr eq_refl) as [_ [_ [resp [v [_ [_ [_ [_ Heq]]]]]]]].
    discriminate.
  - intros v. split.
    + intros Hr. destruct (Hshape _ Hr eq_refl)
        as [Htok [Hm [resp [x [Hs [Hok [Hlt [Hl Heq]]]]]]]].
      inversion Heq; subst x.
      split; [exact Htok|]. split; [exact Hm|]. exists resp. auto.
    + intros [Htok [Hm [resp [Hs [Hok [Hlt Hl]]]]]].
      exact (make_request_success_path _ _ _ _ _ _ _ Htok Hm Hs Hok Hlt Hl).
Qed.

End ClientExtras.

(** [X7] With a token set, the health check answers HTTP 200 whatever the
    upstream says; when the upstream rejects the token (401, with an absent,
    empty or integer X-RateLimit-Remaining header) the body reports the
    invalid-token failure under HTTP 200.  Only a missing token gives
    HTTP 400. *)
Theorem health_check_token_rejected (json_loads : string -> py json)
    (api_token : string) (transport : string -> json -> py response)
    (resp : response) :
  (forall sites, snd (health_check "" sites) = 400%Z) /\
  (api_token <> "" ->
   (forall sites, snd (health_check api_token sites) = 200%Z) /\
   (transport "GET" JNull = Ret resp -> remaining_header_ok resp ->
    status_code resp = 401%Z ->
    health_check api_token
      (fun _ => make_request json_loads api_token transport "GET" JNull)
    = (JObj [("success", JBool false);
             ("error", JStr "Invalid API token. Please check your Webflow API token.")],
       200%Z))).
Proof.
  split; [intros sites; reflexivity|].
  intros Htok. unfold health_check.
  rewrite (proj2 (String.eqb_neq _ _) Htok).
  split; [intros sites; reflexivity|].
  intros Hsent Hok H401.
  assert (Hm : "GET" = "GET" \/ "GET" = "POST" \/ "GET" = "PATCH") by (left; reflexivity).
  assert (Hr : make_request json_loads api_token transport "GET" JNull
               = failure "Invalid API token. Please check your Webflow API token.").
  { reach_status Htok Hm Hsent Hok. rewrite H401. reflexivity. }
  rewrite Hr. reflexivity.
Qed.

(** [X8] For GET /api/sites after an upstream success: a body object without
    "sites" gives an empty site list, and a JSON body that is not an object
    makes the route raise [AttributeError] (an HTTP 500). *)
Theorem sites_route_upstream_body (json_loads : string -> py json)
    (api_token : string) (transport : string -> json -> py response)
    (resp : response) (v : json) :
  api_token <> "" -> transport "GET" JNull = Ret resp -> remaining_header_ok resp ->
  (status_code resp < 400)%Z -> json_loads (text resp) = Ret v ->
  (forall d, v = JObj d -> dict_get d "sites" = None ->
   listing_response "sites" (make_request json_loads api_token transport "GET" JNull)
   = Ret (JObj [("success", JBool true); ("sites", JArr [])], 200%Z)) /\
  ((forall d, v <> JObj d) ->
   exists m, listing_response "sites"
               (make_request json_loads api_token transport "GET" JNull)
             = Raise (ExcAttribute m)).
Proof.
  intros Htok Hsent Hok Hlt Hl.
  rewrite (make_request_success_path _ _ _ _ _ _ _ Htok (or_introl eq_refl)
             Hsent Hok Hlt Hl).
  split.
  - intros d -> Hd. simpl. rewrite Hd. reflexivity.
  - intros Hnot. destruct v as [| | | | |d];
      try (eexists; reflexivity). exfalso; exact (Hnot d eq_refl).
Qed.

(** ** Properties of the remaining route handlers *)

(** [X9] GET /api/collections/<id>/items passes the parsed [limit] and
    [offset] query arguments (100 and 0 when absent) to the upstream call
    unchanged: no bound is applied, negative values included. *)
Theorem get_items_handler_params (get_items : Z -> Z -> result)
    (args : list (string * string)) (n m : Z) :
  match arg_get args "limit" with Some s => py_int s = Ret n | None => n = 100%Z end ->
  match arg_get args "offset" with Some s => py_int s = Ret m | None => m = 0%Z end ->
  get_items_handler get_items args = items_response (get_items n m).
Proof.
  intros Hl Ho. unfold get_items_handler.
  destruct (arg_get args "limit") as [s|]; [rewrite Hl | subst n]; cbn [py_bind];
  destruct (arg_get args "offset") as [t|]; try rewrite Ho; try subst m;
    reflexivity.
Qed.

(** [X10] A [limit] argument, or else an [offset] argument, that [int()]
    rejects makes the route raise [ValueError] (an HTTP 500) before any
    upstream call: the outcome does not depend on the upstream. *)
Theorem get_items_handler_bad_argument (args : list (string * string)) :
  (match arg_get args "limit" with
   | Some s => exists e, py_int s = Raise e
   | None => False
   end \/
   (match arg_get args "limit" with
    | Some s => exists n, py_int s = Ret n
    | None => True
    end /\
    match arg_get args "offset" with
    | Some t => exists e, py_int t = Raise e
    | None => False
    end)) ->
  exists msg, forall get_items, get_items_handler get_items args = Raise (ExcValue msg).
Proof.
  unfold get_items_handler.
  intros [Hl | [Hl Ho]].
  - destruct (arg_get args "limit") as [s|]; [|contradiction].
    destruct Hl as [e He]. destruct (py_int_raises_value_error _ _ He) as [msg ->].
    exists msg. intros get_items. rewrite He. reflexivity.
  - destruct (arg_get args "offset") as [t|]; [|contradiction].
    destruct Ho as [e He]. destruct (py_int_raises_value_error _ _ He) as [msg ->].
    exists msg. intros get_items.
    destruct (arg_get args "limit") as [s|].
    + destruct Hl as [n Hn]. rewrite Hn. cbn [py_bind]. rewrite He. reflexivity.
    + cbn [py_bind]. rewrite He. reflexivity.
Qed.

(** [X11] POST /api/sites/<id>/publish sends {'publishToWebflowSubdomain':
    True} alone when [request.get_json()] gives None, a falsy value, or an
    object whose "customDomains" is missing or falsy (None, [], "", ...);
    a truthy "customDomains" is sent along unchanged. *)
Theorem publish_custom_domains (request : string -> json -> result)
    (body : option json) :
  (match body with
   | None => True
   | Some v => py_truthy v = false \/
               exists d, v = JObj d /\
                 py_truthy (match dict_get d "customDomains" with
                            | Some c => c | None => JNull end) = false
   end ->
   publish_handler (publish_site request) body
   = publish_reply (request "POST" (JObj [("publishToWebflowSubdomain", JBool true)]))) /\
  (forall d c, body = Some (JObj d) -> dict_get d "customDomains" = Some c ->
   py_truthy c = true ->
   publish_handler (publish_site request) body
   = publish_reply (request "POST" (JObj [("publishToWebflowSubdomain", JBool true);
                                         ("customDomains", c)]))).
Proof.
  split.
  - destruct body as [v|]; [|reflexivity].
    intros [Hf | [d [-> Hc]]].
    + unfold publish_handler. rewrite Hf. reflexivity.
    + unfold publish_handler.
      destruct (py_truthy (JObj d)) eqn:Ht.
      * unfold publish_site, publish_data. rewrite Hc. reflexivity.
      * destruct d; [reflexivity | discriminate].
  - intros d c -> Hc Ht. unfold publish_handler.
    destruct d as [|kv d']; [discriminate|]. cbn [py_truthy].
    rewrite Hc. unfold publish_site, publish_data. rewrite Ht. reflexivity.
Qed.

(** [X12] A truthy JSON body that is not an object (a non-empty list, a
    non-empty string, a non-zero number, true) makes the publish route
    answer 500 "Server error during publish: ..." without calling the
    upstream. *)
Theorem publish_handler_non_object_body (v : json) :
  py_truthy v = true -> (forall d, v <> JObj d) ->
  forall publish, publish_handler publish (Some v)
  = (JObj [("success", JBool false);
           ("error", JStr ("Server error during publish: '" ++ py_type_name v
                           ++ "' object has no attribute 'get'"))], 500%Z).
Proof.
  intros Ht Hnot publish. unfold publish_handler. rewrite Ht.
  destruct v as [| | | | |d]; try reflexivity. exfalso; exact (Hnot d eq_refl).
Qed.

(** ** Further properties of the batch synchronizer *)

Lemma update_loop_app (json_loads : string -> py json)
    (request : string -> json -> result) (pre rest : list (list item))
    (ccs : list (list json)) (results : list result) (calls : list call) :
  Forall2 (fun ch cc => clean_chunk_update json_loads ch = Ret cc) pre ccs ->
  update_loop json_loads request (pre ++ rest) results calls =
  update_loop json_loads request rest
    (results ++ map (update_chunk_result request) ccs)%list
    (calls ++ map (fun cc => ("PATCH", items_body cc)) (filter nonempty ccs))%list.
Proof.
  intros Hf. revert results calls.
  induction Hf as [|ch cc chs ccs' Hc Hf IH]; intros results calls; simpl.
  - rewrite !app_nil_r. reflexivity.
  - rewrite Hc. destruct cc as [|x xs]; simpl; rewrite IH, <- !app_assoc;
      reflexivity.
Qed.

Lemma clean_items_create_non_dict (json_loads : string -> py json)
    (items : list item) (it : item) (v : json) :
  In it items -> dict_get it "fieldData" = Some v -> (forall d, v <> JObj d) ->
  exists e, clean_items_create json_loads items = Raise e.
Proof.
  intros Hin Hget Hnot. induction items as [|it0 r IH]; [contradiction|].
  simpl. destruct Hin as [-> | Hin].
  - unfold field_data_of. rewrite Hget. cbn [py_bind].
    destruct v as [| | | | |d]; try (eexists; reflexivity).
    exfalso; exact (Hnot d eq_refl).
  - destruct (field_data_of it0) as [fd|e]; cbn [py_bind]; [|eexists; reflexivity].
    destruct (clean_field_value json_loads fd) as [cfd|e]; cbn [py_bind];
      [|eexists; reflexivity].
    destruct (IH Hin) as [e He]. rewrite He. eexists; reflexivity.
Qed.

(** [X13] PATCH /api/collections/<id>/items with an item lacking "id" or
    "fieldData" (and a first item whose "fieldData" is a dictionary or
    absent) makes no upstream call and answers 400 with
    "1 out of 1 batches failed", one failed and no successful batch, and the
    validation message as the only error detail. *)
Theorem update_handler_validation_failure (json_loads : string -> py json)
    (request : string -> json -> result) (items : list item) (bad : item) :
  In bad items ->
  dict_has bad "id" = false \/ dict_has bad "fieldData" = false ->
  match items with
  | it0 :: _ => match dict_get it0 "fieldData" with
                | Some (JObj _) | None => True
                | Some _ => False
                end
  | [] => False
  end ->
  snd (update_collection_items json_loads request items) = [] /\
  exists msg,
    update_handler json_loads request items
    = Ret (JObj [("success", JBool false);
                 ("error", JStr "1 out of 1 batches failed");
                 ("successful_batches", JNum 0);
                 ("failed_batches", JNum 1);
                 ("error_details", JArr [JStr ("Batch 1: " ++ msg)]);
                 ("results", JArr [result_json (failure msg)])], 400%Z).
Proof.
  intros Hin Hbad Hfirst.
  destruct (validate_update_first_bad 0 items bad Hin Hbad)
    as [pre [first [post [r [_ [_ [Hv Hr]]]]]]].
  assert (Hu : update_collection_items json_loads request items = (Ret [r], [])).
  { unfold update_collection_items. rewrite Hv. reflexivity. }
  split; [rewrite Hu; reflexivity|].
  assert (Hm : exists msg, r = failure msg)
    by (destruct Hr as [[_ ->] | [_ [_ ->]]]; eexists; reflexivity).
  destruct Hm as [msg ->]. exists msg.
  destruct items as [|it0 rest]; [contradiction|].
  unfold update_handler.
  destruct (dict_get it0 "fieldData") as [[| | | | |d]|]; try contradiction;
    rewrite Hu; reflexivity.
Qed.

(** [X14] Update: when the items pass validation and cleaning a chunk
    raises, the exception propagates, and the PATCH calls already made for
    the earlier chunks (one per non-empty cleaned chunk) stay made. *)
Theorem update_exception_keeps_earlier_calls (json_loads : string -> py json)
    (request : string -> json -> result) (items : list item)
    (pre post : list (list item)) (ch : list item) (ccs : list (list json)) (e : exc) :
  Forall (fun it => dict_has it "id" = true /\ dict_has it "fieldData" = true) items ->
  chunks_of items = (pre ++ ch :: post)%list ->
  Forall2 (fun c cc => clean_chunk_update json_loads c = Ret cc) pre ccs ->
  clean_chunk_update json_loads ch = Raise e ->
  update_collection_items json_loads request items
  = (Raise e, map (fun cc => ("PATCH", items_body cc)) (filter nonempty ccs)).
Proof.
  intros Hok Hch Hpre He.
  unfold update_collection_items. rewrite (validate_update_ok 0 items Hok), Hch.
  rewrite (update_loop_app _ _ _ _ _ _ _ Hpre). simpl. rewrite He. reflexivity.
Qed.

(** [X15] Create: when the items pass validation but one item's
    "fieldData" is not a dictionary, the call raises and no upstream call
    is made at all, since every item is cleaned before the first POST. *)
Theorem create_non_dict_field_data_no_call (json_loads : string -> py json)
    (request : string -> json -> result) (items : list item) (it : item) (v : json) :
  Forall (fun it => dict_has it "fieldData" = true) items ->
  In it items -> dict_get it "fieldData" = Some v -> (forall d, v <> JObj d) ->
  exists e, create_collection_items json_loads request items = (Raise e, []).
Proof.
  intros Hok Hin Hget Hnot.
  destruct (clean_items_create_non_dict json_loads items it v Hin Hget Hnot) as [e He].
  exists e. unfold create_collection_items.
  rewrite (validate_create_ok 0 items Hok), He. reflexivity.
Qed.

Section SentItems.

Variable json_loads : string -> py json.
Variable request : string -> json -> result.

Lemma clean_field_value_ok (it : item) (fd : json) (cfd : dict) :
  field_data_of it = Ret fd -> clean_field_value json_loads fd = Ret cfd ->
  exists d, dict_get it "fieldData" = Some (JObj d) /\ clean_field_data json_loads d = Ret cfd.
Proof.
  unfold field_data_of. destruct (dict_get it "fieldData") as [v|]; [|discriminate].
  intros Hv; inversion Hv; subst v.
  destruct fd as [| | | | |d]; simpl; try discriminate.
  intros Hc. exists d. auto.
Qed.

Lemma clean_items_create_shape (all items : list item) (cs : list json) :
  incl items all -> clean_items_create json_loads items = Ret cs ->
  Forall (created_from json_loads all) cs.
Proof.
  revert cs. induction items as [|it r IH]; intros cs Hincl H; simpl in H.
  - inversion H. constructor.
  - destruct (field_data_of it) as [fd|e] eqn:Hf; cbn [py_bind] in H; [|discriminate].
    destruct (clean_field_value json_loads fd) as [cfd|e] eqn:Hc; cbn [py_bind] in H;
      [|discriminate].
    destruct (clean_items_create json_loads r) as [crest|e]; cbn [py_bind] in H;
      [|discriminate].
    assert (Hrest := IH crest (fun x Hx => Hincl x (or_intror Hx)) eq_refl).
    destruct cfd as [|kv cfd'].
    + inversion H; subst. exact Hrest.
    + inversion H; subst. constructor; [|exact Hrest].
      destruct (clean_field_value_ok _ _ _ Hf Hc) as [d [Hd Hcd]].
      exists it, d, (kv :: cfd'). repeat split; auto.
      * apply Hincl. left. reflexivity.
      * discriminate.
Qed.

Lemma clean_chunk_update_shape (all chunk : list item) (cs : list json) :
  incl chunk all -> clean_chunk_update json_loads chunk = Ret cs ->
  Forall (updated_from json_loads all) cs.
Proof.
  revert cs. induction chunk as [|it r IH]; intros cs Hincl H; simpl in H.
  - inversion H. constructor.
  - destruct (field_data_of it) as [fd|e] eqn:Hf; cbn [py_bind] in H; [|discriminate].
    destruct (clean_field_value json_loads fd) as [cfd|e] eqn:Hc; cbn [py_bind] in H;
      [|discriminate].
    destruct (clean_chunk_update json_loads r) as [crest|e]; cbn [py_bind] in H;
      [|discriminate].
    assert (Hrest := IH crest (fun x Hx => Hincl x (or_intror Hx)) eq_refl).
    destruct cfd as [|kv cfd'].
    + inversion H; subst. exact Hrest.
    + inversion H; subst. constructor; [|exact Hrest].
      destruct (clean_field_value_ok _ _ _ Hf Hc) as [d [Hd Hcd]].
      exists it, d, (kv :: cfd'). repeat split; auto.
      * apply Hincl. left. reflexivity.
      * discriminate.
Qed.

Lemma chunks_of_incl {A} (l c : list A) : In c (chunks_of l) -> incl c l.
Proof.
  intros Hc x Hx. destruct (chunks_of_partition l) as [Hcat _].
  rewrite <- Hcat. apply in_concat. exists c. auto.
Qed.

Lemma update_loop_calls_shape (all : list item) (chunks : list (list item))
    (results : list result) (calls : list call) :
  (forall ch, In ch chunks -> incl ch all) ->
  Forall (fun c => exists chunk, c = ("PATCH", items_body chunk) /\
                     Forall (updated_from json_loads all) chunk) calls ->
  Forall (fun c => exists chunk, c = ("PATCH", items_body chunk) /\
                     Forall (updated_from json_loads all) chunk)
    (snd (update_loop json_loads request chunks results calls)).
Proof.
  revert results calls. induction chunks as [|ch r IH]; intros results calls Hch Hc;
    simpl; [exact Hc|].
  destruct (clean_chunk_update json_loads ch) as [cleaned|e] eqn:Hcl; [|exact Hc].
  destruct cleaned as [|x xs].
  - apply IH; [intros c Hin; apply Hch; right; exact Hin | exact Hc].
  - apply IH; [intros c Hin; apply Hch; right; exact Hin|].
    apply Forall_app. split; [exact Hc|]. constructor; [|constructor].
    exists (x :: xs). split; [reflexivity|].
    apply (clean_chunk_update_shape all ch); [apply Hch; left; reflexivity | exact Hcl].
Qed.

End SentItems.

(** [X16] Every upstream call of Create is a POST of {'items': chunk} whose
    elements are exactly {'fieldData': cleaned} with the non-empty cleaned
    field data of an input item; every call of Update is a PATCH whose
    elements are {'id': item['id'], 'fieldData': cleaned} in the same way.
    No other key of an input item is ever sent. *)
Theorem synchronize_sends_cleaned_items (json_loads : string -> py json)
    (request : string -> json -> result) (items : list item) :
  Forall (fun c => exists chunk, c = ("POST", items_body chunk) /\
                     Forall (created_from json_loads items) chunk)
    (snd (create_collection_items json_loads request items)) /\
  Forall (fun c => exists chunk, c = ("PATCH", items_body chunk) /\
                     Forall (updated_from json_loads items) chunk)
    (snd (update_collection_items json_loads request items)).
Proof.
  split.
  - unfold create_collection_items.
    destruct (validate_create 0 items); [constructor|].
    destruct (clean_items_create json_loads items) as [cs|e] eqn:Hcs; [|constructor].
    rewrite create_loop_spec. simpl.
    assert (Hall := clean_items_create_shape json_loads items items cs
                      (incl_refl items) Hcs).
    apply Forall_forall. intros c Hc. apply in_map_iff in Hc.
    destruct Hc as [chunk [<- Hin]]. exists chunk. split; [reflexivity|].
    apply Forall_forall. intros x Hx.
    rewrite Forall_forall in Hall. apply Hall.
    exact (chunks_of_incl cs chunk Hin x Hx).
  - unfold update_collection_items.
    destruct (validate_update 0 items); [constructor|].
    apply update_loop_calls_shape; [|constructor].
    intros ch Hin. exact (chunks_of_incl items ch Hin).
Qed.

(** ** Further properties of the field normalizer *)

Lemma dict_set_fresh (d : dict) (k : string) (v : json) :
  dict_get d k = None -> dict_set d k v = (d ++ [(k, v)])%list.
Proof.
  induction d as [|[k1 v1] r IH]; simpl; intros H; [reflexivity|].
  destruct (String.eqb k k1); [discriminate|]. rewrite (IH H). reflexivity.
Qed.

Section NormalizerExtras.

Variable json_loads : string -> py json.

Lemma clean_loop_surviving (fd acc out : dict) :
  NoDup (map fst fd) -> (forall k, In k (map fst fd) -> dict_get acc k = None) ->
  clean_loop json_loads fd acc = Ret out ->
  out = (acc ++ surviving json_loads fd)%list.
Proof.
  revert acc. induction fd as [|[k v] r IH]; simpl; intros acc Hnd Hfresh Hrun.
  - inversion Hrun. rewrite app_nil_r. reflexivity.
  - inversion Hnd as [|? ? Hnotin Hnd']; subst.
    destruct (clean_field json_loads k v) as [[v'|]|e]; cbn [py_bind] in Hrun;
      [| |discriminate].
    + assert (Hfresh' : forall k', In k' (map fst r) ->
                dict_get (dict_set acc k v') k' = None).
      { intros k' Hk'. rewrite dict_get_set.
        destruct (String.eqb k' k) eqn:E.
        - apply String.eqb_eq in E; subst k'. contradiction.
        - apply Hfresh. right. exact Hk'. }
      rewrite (IH _ Hnd' Hfresh' Hrun), (dict_set_fresh _ _ _ (Hfresh k (or_introl eq_refl))).
      rewrite <- app_assoc. reflexivity.
    + exact (IH _ Hnd' (fun k' Hk' => Hfresh k' (or_intror Hk')) Hrun).
Qed.

Lemma surviving_keys (fd : dict) (k : string) :
  In k (map fst (surviving json_loads fd)) -> In k (map fst fd).
Proof.
  induction fd as [|[k1 v1] r IH]; simpl; [auto|].
  destruct (clean_field json_loads k1 v1) as [[v'|]|e]; simpl; intuition.
Qed.

Lemma surviving_nodup (fd : dict) :
  NoDup (map fst fd) -> NoDup (map fst (surviving json_loads fd)).
Proof.
  induction fd as [|[k1 v1] r IH]; simpl; intros Hnd; [constructor|].
  inversion Hnd as [|? ? Hnotin Hnd']; subst.
  destruct (clean_field json_loads k1 v1) as [[v'|]|e]; simpl; auto.
  constructor; [|auto]. intros Hin. apply Hnotin. exact (surviving_keys r k1 Hin).
Qed.

Lemma clean_field_raise (k : string) (v : json) (e : exc) :
  clean_field json_loads k v = Raise e ->
  exists s, v = JStr s /\ starts_with_brace s = true /\ ends_with_brace s = true /\
    json_loads s = Raise e /\ is_json_decode_error e = false.
Proof.
  destruct v as [| | |s|[|x l]|d]; simpl; try discriminate;
    [|destruct (is_reference_field k); discriminate].
  destruct (String.eqb s "null" || String.eqb s "undefined"); [discriminate|].
  destruct (starts_with_brace s && ends_with_brace s) eqn:Hb.
  - apply andb_prop in Hb. destruct Hb as [Hs He].
    destruct (json_loads s) as [p|e'] eqn:Hl; [discriminate|].
    destruct (is_json_decode_error e') eqn:Hd.
    + destruct (String.eqb (strip s) "" && is_reference_field k); discriminate.
    + intros H; inversion H; subst e'. exists s. auto.
  - destruct (String.eqb (strip s) "" && is_reference_field k); discriminate.
Qed.

Lemma clean_field_some (k : string) (v v' : json) :
  clean_field json_loads k v = Ret (Some v') ->
  v' = v \/ exists s, v = JStr s /\ starts_with_brace s = true /\
                      ends_with_brace s = true /\ json_loads s = Ret v'.
Proof.
  destruct v as [| | |s|[|x l]|d]; simpl;
    [discriminate | intros H; inversion H; left; reflexivity
    | intros H; inversion H; left; reflexivity | | |
    intros H; inversion H; left; reflexivity | intros H; inversion H; left; reflexivity].
  - destruct (String.eqb s "null" || String.eqb s "undefined"); [discriminate|].
    destruct (starts_with_brace s && ends_with_brace s) eqn:Hb.
    + apply andb_prop in Hb. destruct Hb as [Hs He].
      destruct (json_loads s) as [p|e'] eqn:Hl.
      * intros H; inversion H; subst p. right. exists s. auto.
      * destruct (is_json_decode_error e'); [|discriminate].
        destruct (String.eqb (strip s) "" && is_reference_field k); [discriminate|].
        intros H; inversion H; left; reflexivity.
    + destruct (String.eqb (strip s) "" && is_reference_field k); [discriminate|].
      intros H; inversion H; left; reflexivity.
  - destruct (is_reference_field k); [discriminate|].
    intros H; inversion H; left; reflexivity.
Qed.

Lemma clean_loop_raise (fd acc : dict) (e : exc) :
  clean_loop json_loads fd acc = Raise e ->
  exists k s, In (k, JStr s) fd /\ starts_with_brace s = true /\
    ends_with_brace s = true /\ json_loads s = Raise e /\ is_json_decode_error e = false.
Proof.
  revert acc. induction fd as [|[k v] r IH]; simpl; intros acc H; [discriminate|].
  destruct (clean_field json_loads k v) as [o|e'] eqn:Hc; cbn [py_bind] in H.
  - destruct o as [v'|];
      [destruct (IH _ H) as [k1 [s [Hin Hrest]]] | destruct (IH _ H) as [k1 [s [Hin Hrest]]]];
      exists k1, s; auto.
  - inversion H; subst e'.
    destruct (clean_field_raise _ _ _ Hc) as [s [-> Hrest]].
    exists k, s. auto.
Qed.

Lemma clean_loop_fixed (l acc : dict) :
  NoDup (map fst l) -> (forall k, In k (map fst l) -> dict_get acc k = None) ->
  (forall k v, In (k, v) l -> clean_field json_loads k v = Ret (Some v)) ->
  clean_loop json_loads l acc = Ret (acc ++ l)%list.
Proof.
  revert acc. induction l as [|[k v] r IH]; simpl; intros acc Hnd Hfresh Hfix.
  - rewrite app_nil_r. reflexivity.
  - inversion Hnd as [|? ? Hnotin Hnd']; subst.
    rewrite (Hfix k v (or_introl eq_refl)). cbn [py_bind].
    rewrite (dict_set_fresh _ _ _ (Hfresh k (or_introl eq_refl))).
    rewrite IH; [rewrite <- app_assoc; reflexivity | exact Hnd' | |].
    + intros k' Hk'. unfold dict_get in *. fold dict_get.
      rewrite <- (dict_set_fresh _ _ _ (Hfresh k (or_introl eq_refl))), dict_get_set.
      destruct (String.eqb k' k) eqn:E.
      * apply String.eqb_eq in E; subst k'. contradiction.
      * apply Hfresh. right. exact Hk'.
    + intros k' v' Hin. apply Hfix. right. exact Hin.
Qed.

End NormalizerExtras.

(** [X17] For a well-formed input dictionary, the output of
    [clean_field_data] is exactly the list of surviving pairs in input
    order, each with the value its own iteration assigns; its keys are
    input keys and are pairwise distinct. *)
Theorem clean_field_data_survivors (json_loads : string -> py json) (fd out : dict) :
  NoDup (map fst fd) -> clean_field_data json_loads fd = Ret out ->
  out = surviving json_loads fd /\ NoDup (map fst out) /\
  (forall k, In k (map fst out) -> In k (map fst fd)).
Proof.
  intros Hnd Hrun.
  assert (Hout : out = surviving json_loads fd).
  { exact (clean_loop_surviving json_loads fd [] out Hnd (fun _ _ => eq_refl) Hrun). }
  subst out. split; [reflexivity|]. split.
  - apply surviving_nodup. exact Hnd.
  - apply surviving_keys.
Qed.

(** [X18] Numbers, booleans, dictionaries and non-empty lists are kept
    unchanged under their key, reference fields included. *)
Theorem clean_field_data_passthrough (json_loads : string -> py json)
    (fd out : dict) (k : string) (v : json) :
  NoDup (map fst fd) -> In (k, v) fd -> clean_field_data json_loads fd = Ret out ->
  match v with JBool _ | JNum _ | JObj _ | JArr (_ :: _) => True | _ => False end ->
  dict_get out k = Some v.
Proof.
  intros Hnd Hin Hrun Hv.
  destruct (clean_field_data_lookup json_loads fd out k v Hnd Hin Hrun) as [o [Hc Hget]].
  rewrite Hget.
  destruct v as [| | | |[|x l]|d]; try contradiction; simpl in Hc; inversion Hc;
    reflexivity.
Qed.

(** [X19] [clean_field_data] called on an arbitrary value (as the
    synchronizer does with [item['fieldData']]) raises only [AttributeError]
    at [field_data.items()] for a value that is not a dictionary, or, for a
    dictionary, what [json.loads] raises, other than [json.JSONDecodeError],
    on a string value that starts with '{' and ends with '}'. *)
Theorem clean_field_data_raise_origin (json_loads : string -> py json)
    (v : json) (e : exc) :
  clean_field_value json_loads v = Raise e ->
  ((forall d, v <> JObj d) /\ e = ExcAttribute "object has no attribute 'items'") \/
  exists fd k s, v = JObj fd /\ In (k, JStr s) fd /\ starts_with_brace s = true /\
    ends_with_brace s = true /\ json_loads s = Raise e /\ is_json_decode_error e = false.
Proof.
  destruct v as [| | | | |fd]; simpl; intros H;
    try (left; inversion H; split; [intros d Hd; discriminate Hd | reflexivity]).
  right. destruct (clean_loop_raise json_loads fd [] e H) as [k [s Hrest]].
  exists fd, k, s. auto.
Qed.

(** [X20] When [json.loads] turns a '{...}' text only into a dictionary (as
    JSON does), cleaning is idempotent: cleaning the output of
    [clean_field_data] again returns it unchanged. *)
Theorem clean_field_data_idempotent (json_loads : string -> py json) (fd out : dict) :
  (forall s v, starts_with_brace s = true -> ends_with_brace s = true ->
               json_loads s = Ret v -> exists d, v = JObj d) ->
  NoDup (map fst fd) -> clean_field_data json_loads fd = Ret out ->
  clean_field_data json_loads out = Ret out.
Proof.
  intros Hobj Hnd Hrun.
  assert (Hout := clean_loop_surviving json_loads fd [] out Hnd (fun _ _ => eq_refl) Hrun).
  simpl in Hout.
  assert (Hfix : forall k v, In (k, v) (surviving json_loads fd) ->
                   clean_field json_loads k v = Ret (Some v)).
  { clear Hrun Hout Hnd. induction fd as [|[k1 v1] r IH]; simpl; [contradiction|].
    intros k v Hin.
    destruct (clean_field json_loads k1 v1) as [[v'|]|e] eqn:Hc; auto.
    destruct Hin as [Heq | Hin]; [|auto].
    inversion Heq; subst k1 v'.
    destruct (clean_field_some json_loads k v1 v Hc) as [-> | [s [-> [Hs [He Hl]]]]];
      [exact Hc|].
    destruct (Hobj s v Hs He Hl) as [d ->]. reflexivity. }
  unfold clean_field_data. subst out.
  apply (clean_loop_fixed json_loads _ []); [apply surviving_nodup; exact Hnd | |exact Hfix].
  intros; reflexivity.
Qed.

(** ** Witnesses of the further properties *)

Lemma make_request_fail_fast_witness :
  make_request sample_json_loads "token" (sample_transport 200 [] "{}") "DELETE" JNull
  = failure "Unsupported method: DELETE".
Proof.
  exact (proj2 (make_request_fail_fast sample_json_loads "token" "DELETE" JNull)
           ltac:(discriminate) ltac:(discriminate) ltac:(discriminate)
           ltac:(discriminate) (sample_transport 200 [] "{}")).
Defined.

Lemma make_request_not_found_witness :
  make_request sample_json_loads "token" (sample_transport 404 [] "not json") "GET" JNull
  = failure "Resource not found. Please verify site/collection IDs.".
Proof.
  exact (make_request_not_found sample_json_loads "token"
           (sample_transport 404 [] "not json") "GET" JNull
           (mkResponse 404 [] "not json") ltac:(discriminate) (or_introl eq_refl)
           eq_refl I eq_refl).
Defined.

Lemma make_request_error_fields_witness :
  make_request error_json_loads "token"
    (sample_transport 422 [("X-RateLimit-Remaining", "58")] validation_error_text)
    "PATCH" JNull
  = RFailure (JStr "Validation Error") (Some (JArr [JStr "slug taken"])) (Some 422%Z).
Proof.
  assert (Hok : remaining_header_ok
                  (mkResponse 422 [("X-RateLimit-Remaining", "58")] validation_error_text)).
  { vm_compute. right. exists 58%Z. reflexivity. }
  assert (Hl : error_json_loads validation_error_text
               = Ret (JObj [("message", JStr "Validation Error");
                            ("details", JArr [JStr "slug taken"])]))
    by (vm_compute; reflexivity).
  assert (Hge : (400 <= 422)%Z) by lia.
  exact (make_request_error_fields error_json_loads "token"
           (sample_transport 422 [("X-RateLimit-Remaining", "58")] validation_error_text)
           "PATCH" JNull
           (mkResponse 422 [("X-RateLimit-Remaining", "58")] validation_error_text)
           [("message", JStr "Validation Error"); ("details", JArr [JStr "slug taken"])]
           ltac:(discriminate) (or_intror (or_intror eq_refl)) eq_refl Hok Hge
           ltac:(discriminate) ltac:(discriminate) ltac:(discriminate) Hl).
Defined.

Lemma make_request_error_unparsed_witness :
  make_request sample_json_loads "token" (sample_transport 500 [] "<html>")
    "POST" JNull
  = failure "HTTP 500 error - could not parse response".
Proof.
  assert (Hl : exists e, sample_json_loads "<html>" = Raise e)
    by (eexists; vm_compute; reflexivity).
  assert (Hge : (400 <= 500)%Z) by lia.
  exact (make_request_error_unparsed sample_json_loads "token"
           (sample_transport 500 [] "<html>") "POST" JNull (mkResponse 500 [] "<html>")
           ltac:(discriminate) (or_intror (or_introl eq_refl)) eq_refl I Hge
           ltac:(discriminate) ltac:(discriminate) ltac:(discriminate) (or_introl Hl)).
Defined.

Lemma make_request_transport_errors_witness :
  make_request sample_json_loads "token" (fun _ _ => Raise ExcTimeout) "GET" JNull
  = failure "Request timeout - Webflow API took too long to respond".
Proof.
  exact (proj1 (make_request_transport_errors sample_json_loads "token"
                  (fun _ _ => Raise ExcTimeout) "GET" JNull ltac:(discriminate)
                  (or_introl eq_refl)) eq_refl).
Defined.

Lemma make_request_success_iff_witness :
  make_request sample_json_loads "token" (sample_transport 200 [] "{}") "GET" JNull
  = RSuccess (JObj []).
Proof.
  assert (Hlt : (status_code (mkResponse 200 [] "{}") < 400)%Z) by (simpl; lia).
  assert (Hl : sample_json_loads (text (mkResponse 200 [] "{}")) = Ret (JObj []))
    by (vm_compute; reflexivity).
  apply (proj2 (proj2 (make_request_success_iff sample_json_loads "token"
                         (sample_transport 200 [] "{}") "GET" JNull) (JObj []))).
  split; [discriminate|]. split; [left; reflexivity|].
  exists (mkResponse 200 [] "{}"). split; [reflexivity|]. split; [exact I|].
  split; [exact Hlt | exact Hl].
Defined.

Lemma health_check_token_rejected_witness :
  health_check "token"
    (fun _ => make_request sample_json_loads "token" (sample_transport 401 [] "")
                "GET" JNull)
  = (JObj [("success", JBool false);
           ("error", JStr "Invalid API token. Please check your Webflow API token.")],
     200%Z).
Proof.
  exact (proj2 (proj2 (health_check_token_rejected sample_json_loads "token"
                         (sample_transport 401 [] "") (mkResponse 401 [] ""))
                  ltac:(discriminate)) eq_refl I eq_refl).
Defined.

Lemma sites_route_upstream_body_witness :
  listing_response "sites"
    (make_request sample_json_loads "token" (sample_transport 200 [] "{}") "GET" JNull)
  = Ret (JObj [("success", JBool true); ("sites", JArr [])], 200%Z).
Proof.
  assert (Hlt : (status_code (mkResponse 200 [] "{}") < 400)%Z) by (simpl; lia).
  assert (Hl : sample_json_loads (text (mkResponse 200 [] "{}")) = Ret (JObj []))
    by (vm_compute; reflexivity).
  exact (proj1 (sites_route_upstream_body sample_json_loads "token"
                  (sample_transport 200 [] "{}") (mkResponse 200 [] "{}") (JObj [])
                  ltac:(discriminate) eq_refl I Hlt Hl) [] eq_refl eq_refl).
Defined.

Lemma get_items_handler_params_witness :
  get_items_handler (fun l o => RSuccess (JObj [("items", JArr [JNum l; JNum o])]))
    [("limit", "-5")]
  = Ret (JObj [("success", JBool true); ("items", JArr [JNum (-5); JNum 0]);
               ("pagination", JObj [])], 200%Z).
Proof.
  assert (Hl : py_int "-5" = Ret (-5)%Z) by (vm_compute; reflexivity).
  rewrite (get_items_handler_params
             (fun l o => RSuccess (JObj [("items", JArr [JNum l; JNum o])]))
             [("limit", "-5")] (-5) 0 Hl eq_refl).
  reflexivity.
Defined.

Lemma get_items_handler_bad_argument_witness :
  exists msg, forall get_items,
    get_items_handler get_items [("offset", "0"); ("limit", "ten")]
    = Raise (ExcValue msg).
Proof.
  assert (H : exists e, py_int "ten" = Raise e) by (eexists; vm_compute; reflexivity).
  exact (get_items_handler_bad_argument [("offset", "0"); ("limit", "ten")]
           (or_introl H)).
Defined.

Lemma publish_custom_domains_witness :
  publish_handler (publish_site sample_request) (Some (JObj [("customDomains", JArr [])]))
  = (JObj [("success", JBool true); ("message", JStr "Site published successfully")],
     200%Z).
Proof.
  assert (H : py_truthy (JObj [("customDomains", JArr [])]) = false \/
              exists d, JObj [("customDomains", JArr [])] = JObj d /\
                py_truthy (match dict_get d "customDomains" with
                           | Some c => c | None => JNull end) = false).
  { right. exists [("customDomains", JArr [])]. split; reflexivity. }
  rewrite (proj1 (publish_custom_domains sample_request
                    (Some (JObj [("customDomains", JArr [])]))) H).
  reflexivity.
Defined.

Lemma publish_handler_non_object_body_witness :
  publish_handler (publish_site sample_request) (Some (JArr [JStr "example.com"]))
  = (JObj [("success", JBool false);
           ("error", JStr "Server error during publish: 'list' object has no attribute 'get'")],
     500%Z).
Proof.
  assert (Hnot : forall d, JArr [JStr "example.com"] <> JObj d)
    by (intros d H; discriminate H).
  exact (publish_handler_non_object_body (JArr [JStr "example.com"]) eq_refl Hnot
           (publish_site sample_request)).
Defined.

Lemma update_handler_validation_failure_witness :
  snd (update_collection_items sample_json_loads sample_request
         [[("fieldData", JObj [("name", JStr "x")])]]) = [] /\
  exists msg,
    update_handler sample_json_loads sample_request
      [[("fieldData", JObj [("name", JStr "x")])]]
    = Ret (JObj [("success", JBool false);
                 ("error", JStr "1 out of 1 batches failed");
                 ("successful_batches", JNum 0);
                 ("failed_batches", JNum 1);
                 ("error_details", JArr [JStr ("Batch 1: " ++ msg)]);
                 ("results", JArr [result_json (failure msg)])], 400%Z).
Proof.
  apply (update_handler_validation_failure sample_json_loads sample_request
           [[("fieldData", JObj [("name", JStr "x")])]]
           [("fieldData", JObj [("name", JStr "x")])]).
  - left. reflexivity.
  - left. reflexivity.
  - exact I.
Defined.

(** Item 101 has a string as its field data: the first chunk has already
    been sent when the second one raises. *)
Lemma update_exception_keeps_earlier_calls_witness :
  update_collection_items sample_json_loads sample_request
    (repeat (sample_item (JStr "x")) 100 ++ [[("id", JStr "b"); ("fieldData", JStr "oops")]])
  = (Raise (ExcAttribute "object has no attribute 'items'"),
     [("PATCH", items_body (repeat (JObj [("id", JStr "item");
                                         ("fieldData", JObj [("name", JStr "x")])]) 100))]).
Proof.
  assert (Hok : Forall (fun it => dict_has it "id" = true /\ dict_has it "fieldData" = true)
                  (repeat (sample_item (JStr "x")) 100
                   ++ [[("id", JStr "b"); ("fieldData", JStr "oops")]])).
  { apply Forall_app. split.
    - apply Forall_forall. intros it Hin. apply repeat_spec in Hin. subst it.
      split; reflexivity.
    - constructor; [split; reflexivity | constructor]. }
  assert (Hch : chunks_of (repeat (sample_item (JStr "x")) 100
                           ++ [[("id", JStr "b"); ("fieldData", JStr "oops")]])
                = ([repeat (sample_item (JStr "x")) 100]
                   ++ [[("id", JStr "b"); ("fieldData", JStr "oops")]] :: [])%list)
    by (vm_compute; reflexivity).
  assert (Hpre : Forall2 (fun c cc => clean_chunk_update sample_json_loads c = Ret cc)
                   [repeat (sample_item (JStr "x")) 100]
                   [repeat (JObj [("id", JStr "item");
                                  ("fieldData", JObj [("name", JStr "x")])]) 100]).
  { constructor; [vm_compute; reflexivity | constructor]. }
  assert (He : clean_chunk_update sample_json_loads
                 [[("id", JStr "b"); ("fieldData", JStr "oops")]]
               = Raise (ExcAttribute "object has no attribute 'items'"))
    by (vm_compute; reflexivity).
  rewrite (update_exception_keeps_earlier_calls sample_json_loads sample_request _ _ _ _ _ _
             Hok Hch Hpre He).
  reflexivity.
Defined.

Lemma create_non_dict_field_data_no_call_witness :
  exists e, create_collection_items sample_json_loads sample_request
              [[("fieldData", JObj [("name", JStr "a")])]; [("fieldData", JNull)]]
            = (Raise e, []).
Proof.
  assert (Hnot : forall d, JNull <> JObj d) by (intros d H; discriminate H).
  exact (create_non_dict_field_data_no_call sample_json_loads sample_request
           [[("fieldData", JObj [("name", JStr "a")])]; [("fieldData", JNull)]]
           [("fieldData", JNull)] JNull
           ltac:(repeat constructor) (or_intror (or_introl eq_refl)) eq_refl Hnot).
Defined.

Lemma clean_field_data_survivors_witness :
  [("name", JStr "Post"); ("meta", JObj [])]
  = surviving sample_json_loads
      [("tags", JArr []); ("name", JStr "Post"); ("meta", JStr "{}")] /\
  NoDup (map fst [("name", JStr "Post"); ("meta", JObj [])]) /\
  (forall k, In k (map fst [("name", JStr "Post"); ("meta", JObj [])]) ->
   In k (map fst [("tags", JArr []); ("name", JStr "Post"); ("meta", JStr "{}")])).
Proof.
  assert (Hnd : NoDup (map fst [("tags", JArr []); ("name", JStr "Post");
                                ("meta", JStr "{}")])).
  { simpl. repeat constructor; simpl; intuition discriminate. }
  assert (Hrun : clean_field_data sample_json_loads
                   [("tags", JArr []); ("name", JStr "Post"); ("meta", JStr "{}")]
                 = Ret [("name", JStr "Post"); ("meta", JObj [])])
    by (vm_compute; reflexivity).
  exact (clean_field_data_survivors sample_json_loads _ _ Hnd Hrun).
Defined.

Lemma clean_field_data_passthrough_witness :
  dict_get [("count", JNum 3); ("gallery", JArr [JStr "img"])] "gallery"
  = Some (JArr [JStr "img"]).
Proof.
  assert (Hnd : NoDup (map fst [("count", JNum 3); ("gallery", JArr [JStr "img"])])).
  { simpl. repeat constructor; simpl; intuition discriminate. }
  assert (Hrun : clean_field_data sample_json_loads
                   [("count", JNum 3); ("gallery", JArr [JStr "img"])]
                 = Ret [("count", JNum 3); ("gallery", JArr [JStr "img"])])
    by (vm_compute; reflexivity).
  exact (clean_field_data_passthrough sample_json_loads _ _ "gallery"
           (JArr [JStr "img"]) Hnd (or_intror (or_introl eq_refl)) Hrun I).
Defined.

Lemma clean_field_data_raise_origin_witness :
  ((forall d, JObj [("title", JStr "x"); ("image", JStr big_int_document)] <> JObj d) /\
   ExcValue ("Exceeds the limit (4300 digits) for integer string "
             ++ "conversion: value has 4301 digits")
   = ExcAttribute "object has no attribute 'items'") \/
  exists fd k s, JObj [("title", JStr "x"); ("image", JStr big_int_document)] = JObj fd /\
    In (k, JStr s) fd /\ starts_with_brace s = true /\ ends_with_brace s = true /\
    sample_json_loads s
    = Raise (ExcValue ("Exceeds the limit (4300 digits) for integer string "
                       ++ "conversion: value has 4301 digits")) /\
    is_json_decode_error (ExcValue ("Exceeds the limit (4300 digits) for integer string "
                                    ++ "conversion: value has 4301 digits")) = false.
Proof.
  assert (Hrun : clean_field_value sample_json_loads
                   (JObj [("title", JStr "x"); ("image", JStr big_int_document)])
                 = Raise (ExcValue ("Exceeds the limit (4300 digits) for integer string "
                                    ++ "conversion: value has 4301 digits")))
    by (vm_compute; reflexivity).
  exact (clean_field_data_raise_origin sample_json_loads _ _ Hrun).
Defined.

Lemma clean_field_data_idempotent_witness :
  clean_field_data sample_json_loads [("name", JStr "Post"); ("meta", JObj [])]
  = Ret [("name", JStr "Post"); ("meta", JObj [])].
Proof.
  assert (Hobj : forall s v, starts_with_brace s = true -> ends_with_brace s = true ->
                   sample_json_loads s = Ret v -> exists d, v = JObj d).
  { intros s v _ _. unfold sample_json_loads.
    destruct (String.eqb s "{}"); [intros H; inversion H; eexists; reflexivity|].
    destruct (String.eqb s big_int_document); discriminate. }
  assert (Hnd : NoDup (map fst [("tags", JArr []); ("name", JStr "Post");
                                ("meta", JStr "{}")])).
  { simpl. repeat constructor; simpl; intuition discriminate. }
  assert (Hrun : clean_field_data sample_json_loads
                   [("tags", JArr []); ("name", JStr "Post"); ("meta", JStr "{}")]
                 = Ret [("name", JStr "Post"); ("meta", JObj [])])
    by (vm_compute; reflexivity).
  exact (clean_field_data_idempotent sample_json_loads _ _ Hobj Hnd Hrun).
Defined.
